(** * waddrmgr/keymaker.go: the key makers of the address manager

    A shallow embedding of [LocalKeyMaker] and [RemoteKeyMaker] and of the
    [KeyMaker] interface they implement.  Go methods on a pointer receiver
    become computations over a [World] holding the receiver struct and the
    byte buffers the method allocates; every call to a collaborator
    (hdkeychain, the key store, the decryptor, zero.Bytes) is recorded as an
    [Event], and a run ends either by returning or by a Go panic. *)

From Stdlib Require Import ZArith String List Lia Bool.
From Stdlib.Strings Require Import Byte.
From stdpp Require Import base tactics option list.
Import ListNotations.
Local Open Scope string_scope.

(** ** Basic data *)

(** uint32 arithmetic: Go's [+] on uint32 wraps around. *)
Definition uint32_add (a b : Z) : Z := ((a + b) mod 2 ^ 32)%Z.

(** A Go [[]byte] value. *)
Definition bytes := list byte.

(** Go's two-valued [(T, error)] results of the collaborators, which return
    either a value and a nil error or no value and an error. *)
Inductive result (E T : Type) : Type :=
| Ok (t : T)
| Err (e : E).
Arguments Ok {E T} t.
Arguments Err {E T} e.

(** Modelled from the spec: [KeyScope] (declared outside the sources) is
    the pair [{purpose: uint32, coin: uint32}]; the methods read its fields
    [Purpose] and [Coin]. *)
Record KeyScope : Type := { Purpose : Z; Coin : Z }.

(** The error codes of [ManagerError] that this file raises. *)
Inductive ErrorCode : Type :=
| ErrCoinTypeTooHigh
| ErrAccountNumTooHigh
| ErrWatchingOnly
| ErrLocked
| ErrKeyChain.

#[local] Set Warnings "-register-all".

(** Go [error] values: those the collaborators hand back, those made by
    [errors.New], and [ManagerError{ErrorCode, Description, Err}]. *)
Inductive error (LibError : Type) : Type :=
| LibErr (e : LibError)
| ErrorsNew (str : string)
| ManagerError (c : ErrorCode) (desc : string) (err : option (error LibError)).
Arguments LibErr {LibError} e.
Arguments ErrorsNew {LibError} str.
Arguments ManagerError {LibError} c desc err.

(** Modelled from the spec: [managerError] (waddrmgr/error.go, not among the
    sources) builds the [ManagerError] carrying the code, the description and
    the underlying error. *)
Definition managerError {LibError : Type} (c : ErrorCode) (desc : string)
  (err : option (error LibError)) : error LibError :=
  ManagerError c desc err.

(** The code of an error, when it is a [ManagerError]. *)
Definition errorCode {LibError : Type} (e : error LibError) : option ErrorCode :=
  match e with
  | ManagerError c _ _ => Some c
  | _ => None
  end.

(** ** Collaborators

    Everything the file consumes and does not define: the hdkeychain
    extended keys, the chain parameters, the store bucket and its
    [fetchMasterHDKeys], and the policy constants. *)
Class Collaborators : Type := {
  ExtendedKey : Type;
  Params : Type;
  Bucket : Type;
  Manager : Type;
  HwConfig : Type;
  LibError : Type;
  (* hdkeychain.HardenedKeyStart, maxCoinType, MaxAccountNum *)
  HardenedKeyStart : Z;
  maxCoinType : Z;
  MaxAccountNum : Z;
  errCoinTypeTooHigh : string;
  errAcctTooHigh : string;
  (* hdkeychain *)
  NewMaster : bytes -> option Params -> result LibError ExtendedKey;
  Child : ExtendedKey -> Z -> result LibError ExtendedKey;
  Neuter : ExtendedKey -> result LibError ExtendedKey;
  NewKeyFromString : string -> result LibError ExtendedKey;
  (* the store: encrypted private record, encrypted public record, error *)
  fetchMasterHDKeys :
    Bucket -> option bytes * option bytes * option (error LibError)
}.

(** The [EncryptorDecryptor] interface, of which only [Decrypt] is called. *)
Record EncryptorDecryptor `{Collaborators} : Type := {
  Decrypt : bytes -> result LibError bytes
}.

(** ** Runs: state, events and panics *)

(** Calls that leave the file, in the order they happen. *)
Inductive Event : Type :=
| EvNewMaster
| EvFetchMasterHDKeys
| EvDecrypt (ciphertext : bytes) (succeeded : bool)
| EvNewKeyFromString
| EvZeroBytes (buf : nat)
| EvChild (index : Z)
| EvNeuter
| EvDeriveCoinTypeKey (scope : KeyScope).

Inductive PanicValue : Type :=
| NilDereference
| PanicString (msg : string).

Inductive Outcome (A : Type) : Type :=
| Returns (a : A)
| Panics (p : PanicValue).
Arguments Returns {A} a.
Arguments Panics {A} p.

(** The receiver struct behind the pointer [s], and the buffers allocated
    during the run ([heap !! b] is the content of buffer [b]). *)
Record World (T : Type) : Type := {
  this : T;
  heap : list bytes
}.
Arguments this {T} w.
Arguments heap {T} w.

Record Run (T A : Type) : Type := {
  outcome : Outcome A;
  final : World T;
  events : list Event
}.
Arguments outcome {T A} r.
Arguments final {T A} r.
Arguments events {T A} r.

Definition Go (T A : Type) : Type := World T -> Run T A.

Definition ret {T A : Type} (a : A) : Go T A :=
  fun w => {| outcome := Returns a; final := w; events := [] |}.

Definition panic {T A : Type} (p : PanicValue) : Go T A :=
  fun w => {| outcome := Panics p; final := w; events := [] |}.

Definition bind {T A B : Type} (m : Go T A) (k : A -> Go T B) : Go T B :=
  fun w =>
    let r := m w in
    match outcome r with
    | Returns a =>
        let r' := k a (final r) in
        {| outcome := outcome r'; final := final r';
           events := events r ++ events r' |}
    | Panics p =>
        {| outcome := Panics p; final := final r; events := events r |}
    end.

Declare Scope go_scope.
Delimit Scope go_scope with go.
Notation "x <- m ;; k" := (bind m (fun x => k))
  (at level 100, m at next level, right associativity) : go_scope.
Notation "m ;;; k" := (bind m (fun _ => k))
  (at level 100, right associativity) : go_scope.
Local Open Scope go_scope.

Definition emit {T : Type} (e : Event) : Go T unit :=
  fun w => {| outcome := Returns tt; final := w; events := [e] |}.

Definition getThis {T : Type} : Go T T :=
  fun w => {| outcome := Returns (this w); final := w; events := [] |}.

Definition setThis {T : Type} (s : T) : Go T unit :=
  fun w => {| outcome := Returns tt;
              final := {| this := s; heap := heap w |}; events := [] |}.

(** A fresh buffer holding [content]; its index is returned. *)
Definition alloc {T : Type} (content : bytes) : Go T nat :=
  fun w => {| outcome := Returns (length (heap w));
              final := {| this := this w; heap := heap w ++ [content] |};
              events := [] |}.

Definition readBuf {T : Type} (b : nat) : Go T bytes :=
  fun w => {| outcome := Returns (default [] (heap w !! b));
              final := w; events := [] |}.

(** Modelled from the spec: [zero.Bytes] (internal/zero, not among the
    sources), the memory-wiping utility, which erases a buffer in place:
    every byte of it is overwritten with zero. *)
Definition zero_Bytes {T : Type} (b : nat) : Go T unit :=
  fun w =>
    {| outcome := Returns tt;
       final := {| this := this w;
                   heap := match heap w !! b with
                           | Some old => <[b := replicate (length old) x00]> (heap w)
                           | None => heap w
                           end |};
       events := [EvZeroBytes b] |}.

(** What every method of [KeyMaker] returns: two [*ExtendedKey] and an
    [error], each possibly nil. *)
Definition KeyPairResult `{Collaborators} : Type :=
  (option ExtendedKey * option ExtendedKey * option (error LibError))%type.

(** ** Calls to the collaborators *)
Section Calls.
Context `{C : Collaborators} {T : Type}.

Definition hdkeychain_NewMaster (seed : bytes) (net : option Params)
  : Go T (result LibError ExtendedKey) :=
  emit EvNewMaster ;;; ret (NewMaster seed net).

(** [k.Child(i)] on a [*ExtendedKey]: the method reads the fields of its
    receiver, so a nil receiver is a nil-pointer dereference. *)
Definition ExtendedKey_Child (k : option ExtendedKey) (i : Z)
  : Go T (result LibError ExtendedKey) :=
  match k with
  | None => panic NilDereference
  | Some key => emit (EvChild i) ;;; ret (Child key i)
  end.

Definition ExtendedKey_Neuter (k : ExtendedKey)
  : Go T (result LibError ExtendedKey) :=
  emit EvNeuter ;;; ret (Neuter k).

Definition hdkeychain_NewKeyFromString (s : string)
  : Go T (result LibError ExtendedKey) :=
  emit EvNewKeyFromString ;;; ret (NewKeyFromString s).

Definition call_fetchMasterHDKeys (ns : Bucket)
  : Go T (option bytes * option bytes * option (error LibError)) :=
  emit EvFetchMasterHDKeys ;;; ret (fetchMasterHDKeys ns).

(** [cryptoKeyPriv.Decrypt(ct)]: on success the plaintext lives in a
    fresh buffer, whose index is the slice the caller holds. *)
Definition cryptoKeyPriv_Decrypt (cryptoKeyPriv : EncryptorDecryptor)
  (ct : bytes) : Go T (result LibError nat) :=
  match Decrypt cryptoKeyPriv ct with
  | Ok plain =>
      emit (EvDecrypt ct true) ;;; b <- alloc plain ;; ret (Ok b)
  | Err e => emit (EvDecrypt ct false) ;;; ret (Err e)
  end.
End Calls.

(** ** LocalKeyMaker *)

Record LocalKeyMaker `{Collaborators} : Type := {
  seed : bytes;
  chainParams : option Params;
  rootPrivKey : option ExtendedKey;
  manager : option Manager
}.

(** The struct [s] after the assignment [s.rootPrivKey = k]. *)
Definition withRootPrivKey `{Collaborators} (s : LocalKeyMaker)
  (k : option ExtendedKey) : LocalKeyMaker :=
  {| seed := seed s; chainParams := chainParams s; rootPrivKey := k;
     manager := manager s |}.

Module LocalKeyMaker.
Section Methods.
Context `{C : Collaborators}.

Local Abbreviation M := (Go LocalKeyMaker).

Definition NewLocalKeyMaker (rootPrivKey : option ExtendedKey)
  : LocalKeyMaker * option (error LibError) :=
  ({| seed := []; chainParams := None; rootPrivKey := rootPrivKey;
      manager := None |}, None).

Definition NewLocalKeyMakerFromSeed (seed : bytes)
  (chainParams : option Params) : LocalKeyMaker :=
  {| seed := seed; chainParams := chainParams; rootPrivKey := None;
     manager := None |}.

(** [s.rootPrivKey = k] *)
Definition setRootPrivKey (k : option ExtendedKey) : M unit :=
  s <- getThis ;;
  setThis (withRootPrivKey s k).

Definition CreateMasterKey : M KeyPairResult :=
  s <- getThis ;;
  m <- hdkeychain_NewMaster (seed s) (chainParams s) ;;
  match m with
  | Err _ =>
      ret (None, None,
           Some (ErrorsNew "failed to derive master extended key"))
  | Ok rootPrivKey =>
      n <- ExtendedKey_Neuter rootPrivKey ;;
      match n with
      | Err _ =>
          ret (None, None,
               Some (ErrorsNew "failed to neuter master extended key"))
      | Ok rootPubKey =>
          setRootPrivKey (Some rootPrivKey) ;;;
          ret (Some rootPrivKey, Some rootPubKey, None)
      end
  end.

(** The body of [if s.rootPrivKey == nil { ... }] in [DeriveCoinTypeKey]:
    [Some r] when the block returns [r] from the method, [None] when
    control falls through to the derivation. *)
Definition loadRootPrivKey (ns : Bucket)
  (cryptoKeyPriv : EncryptorDecryptor) : M (option KeyPairResult) :=
  f <- call_fetchMasterHDKeys ns ;;
  let '(masterRootPrivEnc, _, err) := f in
  match err with
  | Some e => ret (Some (None, None, Some e))
  | None =>
      match masterRootPrivEnc with
      | None =>
          ret (Some (None, None, Some (managerError ErrWatchingOnly "" None)))
      | Some enc =>
          d <- cryptoKeyPriv_Decrypt cryptoKeyPriv enc ;;
          match d with
          | Err e =>
              let str :=
                "failed to decrypt master root serialized private key" in
              ret (Some (None, None,
                         Some (managerError ErrLocked str (Some (LibErr e)))))
          | Ok serializedMasterRootPriv =>
              plain <- readBuf serializedMasterRootPriv ;;
              k <- hdkeychain_NewKeyFromString (string_of_list_byte plain) ;;
              setRootPrivKey
                (match k with Ok key => Some key | Err _ => None end) ;;;
              zero_Bytes serializedMasterRootPriv ;;;
              match k with
              | Err e =>
                  let str :=
                    "failed to create master extended private key" in
                  ret (Some (None, None,
                             Some (managerError ErrKeyChain str
                                     (Some (LibErr e)))))
              | Ok _ => ret None
              end
          end
      end
  end.

(** The derivation [m/purpose'/coin'] that ends [DeriveCoinTypeKey]. *)
Definition deriveCoinType (scope : KeyScope) : M KeyPairResult :=
  s <- getThis ;;
  p <- ExtendedKey_Child (rootPrivKey s)
         (uint32_add (Purpose scope) HardenedKeyStart) ;;
  match p with
  | Err e => ret (None, None, Some (LibErr e))
  | Ok purpose =>
      c <- ExtendedKey_Child (Some purpose)
             (uint32_add (Coin scope) HardenedKeyStart) ;;
      match c with
      | Err e => ret (None, None, Some (LibErr e))
      | Ok coinTypePrivKey =>
          n <- ExtendedKey_Neuter coinTypePrivKey ;;
          match n with
          | Err _ =>
              ret (None, None,
                   Some (ErrorsNew "failed to convert cointype private key"))
          | Ok coinTypePubKey =>
              ret (Some coinTypePrivKey, Some coinTypePubKey, None)
          end
      end
  end.

Definition DeriveCoinTypeKey (scope : KeyScope) (ns : Bucket)
  (cryptoKeyPriv : EncryptorDecryptor) : M KeyPairResult :=
  emit (EvDeriveCoinTypeKey scope) ;;;
  if (Coin scope >? maxCoinType)%Z then
    ret (None, None,
         Some (managerError ErrCoinTypeTooHigh errCoinTypeTooHigh None))
  else
    s <- getThis ;;
    early <- match rootPrivKey s with
             | None => loadRootPrivKey ns cryptoKeyPriv
             | Some _ => ret None
             end ;;
    match early with
    | Some r => ret r
    | None => deriveCoinType scope
    end.

Definition DeriveAccountKey (scope : KeyScope) (account : Z) (ns : Bucket)
  (cryptoKeyPriv : EncryptorDecryptor) : M KeyPairResult :=
  if (account >? MaxAccountNum)%Z then
    ret (None, None,
         Some (managerError ErrAccountNumTooHigh errAcctTooHigh None))
  else
    r <- DeriveCoinTypeKey scope ns cryptoKeyPriv ;;
    (* [err] is assigned again by the next statement before it is read *)
    let '(coinTypePrivKey, _, _) := r in
    a <- ExtendedKey_Child coinTypePrivKey
           (uint32_add account HardenedKeyStart) ;;
    match a with
    | Err e => ret (None, None, Some (LibErr e))
    | Ok acctKeyPriv =>
        n <- ExtendedKey_Neuter acctKeyPriv ;;
        match n with
        | Err _ =>
            ret (None, None,
                 Some (ErrorsNew
                         "failed to convert private key for account 0"))
        | Ok acctKeyPub => ret (Some acctKeyPriv, Some acctKeyPub, None)
        end
    end.
End Methods.
End LocalKeyMaker.

(** ** RemoteKeyMaker *)

Record RemoteKeyMaker `{Collaborators} : Type := {
  hwConfig : option HwConfig
}.

Module RemoteKeyMaker.
Section Methods.
Context `{C : Collaborators}.

Local Abbreviation M := (Go RemoteKeyMaker).

Definition NewRemoteKeyMaker (hwConfig : option HwConfig)
  : RemoteKeyMaker * option (error LibError) :=
  ({| hwConfig := hwConfig |}, None).

Definition CreateMasterKey : M KeyPairResult :=
  panic (PanicString "implement me").

Definition DeriveCoinTypeKey (scope : KeyScope) (ns : Bucket)
  (cryptoKeyPriv : EncryptorDecryptor) : M KeyPairResult :=
  panic (PanicString "implement me").

Definition DeriveAccountKey (scope : KeyScope) (account : Z) (ns : Bucket)
  (cryptoKeyPriv : EncryptorDecryptor) : M KeyPairResult :=
  panic (PanicString "implement me").
End Methods.
End RemoteKeyMaker.

(** The [KeyMaker] interface. *)
Class KeyMaker `{Collaborators} (T : Type) : Type := {
  CreateMasterKey : Go T KeyPairResult;
  DeriveCoinTypeKey :
    KeyScope -> Bucket -> EncryptorDecryptor -> Go T KeyPairResult;
  DeriveAccountKey :
    KeyScope -> Z -> Bucket -> EncryptorDecryptor -> Go T KeyPairResult
}.


#[export] Instance LocalKeyMaker_KeyMaker `{Collaborators}
  : KeyMaker LocalKeyMaker := {
  CreateMasterKey := LocalKeyMaker.CreateMasterKey;
  DeriveCoinTypeKey := LocalKeyMaker.DeriveCoinTypeKey;
  DeriveAccountKey := LocalKeyMaker.DeriveAccountKey
}.

#[export] Instance RemoteKeyMaker_KeyMaker `{Collaborators}
  : KeyMaker RemoteKeyMaker := {
  CreateMasterKey := RemoteKeyMaker.CreateMasterKey;
  DeriveCoinTypeKey := RemoteKeyMaker.DeriveCoinTypeKey;
  DeriveAccountKey := RemoteKeyMaker.DeriveAccountKey
}.

(** ** Observations on runs *)

Definition isStoreLookup (e : Event) : bool :=
  match e with EvFetchMasterHDKeys => true | _ => false end.

Definition isDecrypt (e : Event) : bool :=
  match e with EvDecrypt _ _ => true | _ => false end.

Definition isFailedDecrypt (e : Event) : bool :=
  match e with EvDecrypt _ false => true | _ => false end.

Definition isZeroOf (b : nat) (e : Event) : bool :=
  match e with EvZeroBytes b' => Nat.eqb b b' | _ => false end.

Definition countEvents (p : Event -> bool) (es : list Event) : nat :=
  length (List.filter p es).

Definition storeLookups (es : list Event) : nat := countEvents isStoreLookup es.
Definition decrypts (es : list Event) : nat := countEvents isDecrypt es.

(** A buffer is erased when it holds nothing but zero bytes. *)
Definition erased (h : list bytes) (b : nat) : Prop :=
  exists content, h !! b = Some content /\ Forall (fun x => x = x00) content.

(** The operations of a [LocalKeyMaker], as a caller can issue them. *)
Inductive LocalOp `{Collaborators} : Type :=
| OpCreateMasterKey
| OpDeriveCoinTypeKey (scope : KeyScope) (ns : Bucket)
    (cryptoKeyPriv : EncryptorDecryptor)
| OpDeriveAccountKey (scope : KeyScope) (account : Z) (ns : Bucket)
    (cryptoKeyPriv : EncryptorDecryptor).

Definition runOp `{Collaborators} (op : LocalOp)
  : Go LocalKeyMaker KeyPairResult :=
  match op with
  | OpCreateMasterKey => LocalKeyMaker.CreateMasterKey
  | OpDeriveCoinTypeKey scope ns d => LocalKeyMaker.DeriveCoinTypeKey scope ns d
  | OpDeriveAccountKey scope account ns d =>
      LocalKeyMaker.DeriveAccountKey scope account ns d
  end.

(** The world after a sequence of operations; a panic is taken to be
    recovered by the caller, who goes on using the instance. *)
Fixpoint runOps `{Collaborators} (ops : list LocalOp)
  (w : World LocalKeyMaker) : World LocalKeyMaker :=
  match ops with
  | [] => w
  | op :: rest => runOps rest (final (runOp op w))
  end.

(** The manual composition the specification compares against:
    [NewMaster(S, P).Child(purpose + H).Child(coin + H)] and its
    [.Child(account + H)], each step failing when the one before fails. *)
Definition spec_coin_type_from `{Collaborators} (root : ExtendedKey)
  (scope : KeyScope) : result LibError ExtendedKey :=
  match Child root (uint32_add (Purpose scope) HardenedKeyStart) with
  | Err e => Err e
  | Ok p => Child p (uint32_add (Coin scope) HardenedKeyStart)
  end.

Definition spec_manual_coin_type_key `{Collaborators} (S : bytes)
  (P : option Params) (scope : KeyScope) : result LibError ExtendedKey :=
  match NewMaster S P with
  | Err e => Err e
  | Ok m => spec_coin_type_from m scope
  end.

Definition spec_manual_account_key `{Collaborators} (S : bytes)
  (P : option Params) (scope : KeyScope) (account : Z)
  : result LibError ExtendedKey :=
  match spec_manual_coin_type_key S P scope with
  | Err e => Err e
  | Ok c => Child c (uint32_add account HardenedKeyStart)
  end.

(** The runs of [LocalKeyMaker.DeriveCoinTypeKey] from a world [w], one
    constructor per path through the method. *)
Inductive CoinTypeRun `{Collaborators} (scope : KeyScope) (ns : Bucket)
  (cryptoKeyPriv : EncryptorDecryptor) (w : World LocalKeyMaker)
  : Run LocalKeyMaker KeyPairResult -> Prop :=
| RunCoinTooHigh :
    (maxCoinType < Coin scope)%Z ->
    CoinTypeRun scope ns cryptoKeyPriv w
      {| outcome :=
           Returns (None, None,
                    Some (managerError ErrCoinTypeTooHigh errCoinTypeTooHigh
                            None));
         final := w;
         events := [EvDeriveCoinTypeKey scope] |}
| RunCached (k : ExtendedKey) :
    (Coin scope <= maxCoinType)%Z ->
    rootPrivKey (this w) = Some k ->
    CoinTypeRun scope ns cryptoKeyPriv w
      {| outcome := outcome (LocalKeyMaker.deriveCoinType scope w);
         final := w;
         events :=
           EvDeriveCoinTypeKey scope
           :: events (LocalKeyMaker.deriveCoinType scope w) |}
| RunFetchError (priv pub : option bytes) (e : error LibError) :
    (Coin scope <= maxCoinType)%Z ->
    rootPrivKey (this w) = None ->
    fetchMasterHDKeys ns = (priv, pub, Some e) ->
    CoinTypeRun scope ns cryptoKeyPriv w
      {| outcome := Returns (None, None, Some e);
         final := w;
         events := [EvDeriveCoinTypeKey scope; EvFetchMasterHDKeys] |}
| RunWatchingOnly (pub : option bytes) :
    (Coin scope <= maxCoinType)%Z ->
    rootPrivKey (this w) = None ->
    fetchMasterHDKeys ns = (None, pub, None) ->
    CoinTypeRun scope ns cryptoKeyPriv w
      {| outcome :=
           Returns (None, None, Some (managerError ErrWatchingOnly "" None));
         final := w;
         events := [EvDeriveCoinTypeKey scope; EvFetchMasterHDKeys] |}
| RunLocked (enc : bytes) (pub : option bytes) (e : LibError) :
    (Coin scope <= maxCoinType)%Z ->
    rootPrivKey (this w) = None ->
    fetchMasterHDKeys ns = (Some enc, pub, None) ->
    Decrypt cryptoKeyPriv enc = Err e ->
    CoinTypeRun scope ns cryptoKeyPriv w
      {| outcome :=
           Returns (None, None,
                    Some (managerError ErrLocked
                            "failed to decrypt master root serialized private key"
                            (Some (LibErr e))));
         final := w;
         events := [EvDeriveCoinTypeKey scope; EvFetchMasterHDKeys;
                    EvDecrypt enc false] |}
| RunCorrupt (enc : bytes) (pub : option bytes) (plain : bytes) (e : LibError) :
    (Coin scope <= maxCoinType)%Z ->
    rootPrivKey (this w) = None ->
    fetchMasterHDKeys ns = (Some enc, pub, None) ->
    Decrypt cryptoKeyPriv enc = Ok plain ->
    NewKeyFromString (string_of_list_byte plain) = Err e ->
    CoinTypeRun scope ns cryptoKeyPriv w
      {| outcome :=
           Returns (None, None,
                    Some (managerError ErrKeyChain
                            "failed to create master extended private key"
                            (Some (LibErr e))));
         final := {| this := withRootPrivKey (this w) None;
                     heap := heap w ++ [replicate (length plain) x00] |};
         events := [EvDeriveCoinTypeKey scope; EvFetchMasterHDKeys;
                    EvDecrypt enc true; EvNewKeyFromString;
                    EvZeroBytes (length (heap w))] |}
| RunLoaded (enc : bytes) (pub : option bytes) (plain : bytes)
    (key : ExtendedKey) :
    (Coin scope <= maxCoinType)%Z ->
    rootPrivKey (this w) = None ->
    fetchMasterHDKeys ns = (Some enc, pub, None) ->
    Decrypt cryptoKeyPriv enc = Ok plain ->
    NewKeyFromString (string_of_list_byte plain) = Ok key ->
    let w' := {| this := withRootPrivKey (this w) (Some key);
                 heap := heap w ++ [replicate (length plain) x00] |} in
    CoinTypeRun scope ns cryptoKeyPriv w
      {| outcome := outcome (LocalKeyMaker.deriveCoinType scope w');
         final := w';
         events :=
           [EvDeriveCoinTypeKey scope; EvFetchMasterHDKeys;
            EvDecrypt enc true; EvNewKeyFromString;
            EvZeroBytes (length (heap w))]
           ++ events (LocalKeyMaker.deriveCoinType scope w') |}.

(** ** Test doubles

    A small concrete instance of the collaborators, used to run the methods
    on explicit inputs: keys are their derivation path, the store is the pair
    of records it holds, and the two decryptors are the identity and one
    that always fails. *)
Module TestDouble.

Record Key : Type := {
  isPrivate : bool;
  path : list Z;
  material : bytes
}.

Definition fakeNewMaster (seed : bytes) (net : option unit) : result string Key :=
  if ((16 <=? length seed) && (length seed <=? 64))%nat
  then Ok {| isPrivate := true; path := []; material := seed |}
  else Err "seed length must be between 128 and 512 bits".

Definition fakeChild (k : Key) (i : Z) : result string Key :=
  if negb (isPrivate k) && (2 ^ 31 <=? i)%Z
  then Err "cannot derive a hardened key from a public key"
  else Ok {| isPrivate := isPrivate k; path := path k ++ [i];
             material := material k |}.

Definition fakeNeuter (k : Key) : result string Key :=
  Ok {| isPrivate := false; path := path k; material := material k |}.

Definition fakeNewKeyFromString (s : string) : result string Key :=
  if String.prefix "xprv" s
  then Ok {| isPrivate := true; path := [];
             material := list_byte_of_string s |}
  else Err "the provided serialized extended key is invalid".

Definition Store : Type := (option bytes * option bytes)%type.

Definition collaborators : Collaborators := {|
  ExtendedKey := Key;
  Params := unit;
  Bucket := Store;
  Manager := unit;
  HwConfig := unit;
  LibError := string;
  HardenedKeyStart := 2 ^ 31;
  maxCoinType := 2 ^ 31 - 1;
  MaxAccountNum := 2 ^ 31 - 2;
  errCoinTypeTooHigh := "coin type may not exceed 2^31 - 1";
  errAcctTooHigh := "account number may not exceed 2^31 - 2";
  NewMaster := fakeNewMaster;
  Child := fakeChild;
  Neuter := fakeNeuter;
  NewKeyFromString := fakeNewKeyFromString;
  fetchMasterHDKeys := fun ns : Store => (fst ns, snd ns, None)
|}.

#[local] Existing Instance collaborators.

Definition unlocked : EncryptorDecryptor :=
  {| Decrypt := fun ct => Ok ct |}.

Definition locked : EncryptorDecryptor :=
  {| Decrypt := fun _ => Err "crypto key is locked" |}.

Definition seed16 : bytes := list_byte_of_string "0123456789abcdef".

Definition storedKey : bytes := list_byte_of_string "xprv-master-root".

Definition privateStore : Bucket := (Some storedKey, None).
Definition watchingOnlyStore : Bucket := (None, Some storedKey).
Definition corruptStore : Bucket :=
  (Some (list_byte_of_string "garbage"), None).

Definition bip44 : KeyScope := {| Purpose := 44; Coin := 0 |}.
Definition coinTooHigh : KeyScope := {| Purpose := 44; Coin := 2 ^ 31 |}.

(** A maker made by [NewLocalKeyMakerFromSeed], before any call. *)
Definition fresh : World LocalKeyMaker :=
  {| this := LocalKeyMaker.NewLocalKeyMakerFromSeed seed16 None; heap := [] |}.

Definition rootKey : ExtendedKey :=
  {| isPrivate := true; path := []; material := storedKey |}.

(** A maker made by [NewLocalKeyMaker] from an existing root key. *)
Definition keyed : World LocalKeyMaker :=
  {| this := fst (LocalKeyMaker.NewLocalKeyMaker (Some rootKey)); heap := [] |}.

Definition remote : World RemoteKeyMaker :=
  {| this := fst (RemoteKeyMaker.NewRemoteKeyMaker None); heap := [] |}.

End TestDouble.

(** ** Further observations and doubles *)

Definition isNewMaster (e : Event) : bool :=
  match e with EvNewMaster => true | _ => false end.

Definition isZeroBytes (e : Event) : bool :=
  match e with EvZeroBytes _ => true | _ => false end.

(** A buffer that holds zero bytes only. *)
Definition wiped (buf : bytes) : Prop := Forall (fun x => x = x00) buf.

(** The two shapes of a well-formed method result: both keys and a nil
    error, or nil keys and an error. *)
Definition wellFormed `{Collaborators} (res : KeyPairResult) : Prop :=
  (exists priv pub, res = (Some priv, Some pub, None)) \/
  (exists e, res = (None, None, Some e)).

(** A keychain like that of [TestDouble], except that no child derives at
    the hardened index 14 and that a key derived last at the hardened index
    13 cannot be neutered; and a public root key, from which no hardened
    child derives. *)
Module StrictDouble.

Definition unlucky : Z := (2 ^ 31 + 13)%Z.
Definition invalid : Z := (2 ^ 31 + 14)%Z.

Definition strictChild (k : TestDouble.Key) (i : Z)
  : result string TestDouble.Key :=
  if (i =? invalid)%Z
  then Err "the extended key at this index is invalid"
  else TestDouble.fakeChild k i.

Definition strictNeuter (k : TestDouble.Key) : result string TestDouble.Key :=
  match last (TestDouble.path k) with
  | Some i =>
      if (i =? unlucky)%Z
      then Err "unknown hd private extended key bytes"
      else TestDouble.fakeNeuter k
  | None => TestDouble.fakeNeuter k
  end.

Definition collaborators : Collaborators := {|
  ExtendedKey := TestDouble.Key;
  Params := unit;
  Bucket := TestDouble.Store;
  Manager := unit;
  HwConfig := unit;
  LibError := string;
  HardenedKeyStart := 2 ^ 31;
  maxCoinType := 2 ^ 31 - 1;
  MaxAccountNum := 2 ^ 31 - 2;
  errCoinTypeTooHigh := "coin type may not exceed 2^31 - 1";
  errAcctTooHigh := "account number may not exceed 2^31 - 2";
  NewMaster := TestDouble.fakeNewMaster;
  Child := strictChild;
  Neuter := strictNeuter;
  NewKeyFromString := TestDouble.fakeNewKeyFromString;
  fetchMasterHDKeys := fun ns : TestDouble.Store => (fst ns, snd ns, None)
|}.

#[local] Existing Instance collaborators.

Definition locked : EncryptorDecryptor :=
  {| Decrypt := fun _ => Err "crypto key is locked" |}.

Definition emptyStore : Bucket := (None, None).

Definition rootKey : ExtendedKey :=
  {| TestDouble.isPrivate := true; TestDouble.path := [];
     TestDouble.material := TestDouble.storedKey |}.

Definition publicRootKey : ExtendedKey :=
  {| TestDouble.isPrivate := false; TestDouble.path := [];
     TestDouble.material := TestDouble.storedKey |}.

(** Makers made by [NewLocalKeyMaker] from a private and from a public
    root key. *)
Definition keyed : World LocalKeyMaker :=
  {| this := fst (LocalKeyMaker.NewLocalKeyMaker (Some rootKey)); heap := [] |}.

Definition publicKeyed : World LocalKeyMaker :=
  {| this := fst (LocalKeyMaker.NewLocalKeyMaker (Some publicRootKey));
     heap := [] |}.

Definition coin13 : KeyScope := {| Purpose := 44; Coin := 13 |}.
Definition bip44 : KeyScope := {| Purpose := 44; Coin := 0 |}.

(** A purpose that is itself at least [2^31]. *)
Definition highPurpose : KeyScope := {| Purpose := 2 ^ 31 + 5; Coin := 0 |}.

End StrictDouble.

(** A store whose lookup fails, over the keychain of [TestDouble]. *)
Module BrokenStore.

Definition collaborators : Collaborators := {|
  ExtendedKey := TestDouble.Key;
  Params := unit;
  Bucket := TestDouble.Store;
  Manager := unit;
  HwConfig := unit;
  LibError := string;
  HardenedKeyStart := 2 ^ 31;
  maxCoinType := 2 ^ 31 - 1;
  MaxAccountNum := 2 ^ 31 - 2;
  errCoinTypeTooHigh := "coin type may not exceed 2^31 - 1";
  errAcctTooHigh := "account number may not exceed 2^31 - 2";
  NewMaster := TestDouble.fakeNewMaster;
  Child := TestDouble.fakeChild;
  Neuter := TestDouble.fakeNeuter;
  NewKeyFromString := TestDouble.fakeNewKeyFromString;
  fetchMasterHDKeys := fun ns : TestDouble.Store =>
    (fst ns, snd ns, Some (LibErr ("bucket is closed" : string)))
|}.

#[local] Existing Instance collaborators.

Definition unlocked : EncryptorDecryptor :=
  {| Decrypt := fun ct => Ok ct |}.

Definition privateStore : Bucket := (Some TestDouble.storedKey, None).

Definition fresh : World LocalKeyMaker :=
  {| this := LocalKeyMaker.NewLocalKeyMakerFromSeed TestDouble.seed16 None;
     heap := [] |}.

Definition bip44 : KeyScope := {| Purpose := 44; Coin := 0 |}.

End BrokenStore.

(** ** Facts about runs *)

Ltac unfold_calls :=
  unfold hdkeychain_NewMaster, ExtendedKey_Child, ExtendedKey_Neuter,
    hdkeychain_NewKeyFromString, call_fetchMasterHDKeys,
    cryptoKeyPriv_Decrypt, LocalKeyMaker.setRootPrivKey.

Ltac unfold_go :=
  unfold bind, ret, panic, emit, getThis, setThis, alloc, readBuf, zero_Bytes.

(** Decide the bounds test of a method from the bounds in the context. *)
Ltac bounds_test x y :=
  destruct (Z.gtb_spec x y); [ try lia | try lia ].

Lemma countEvents_app (p : Event -> bool) (es es' : list Event) :
  countEvents p (es ++ es') = (countEvents p es + countEvents p es')%nat.
Proof.
  unfold countEvents. rewrite List.filter_app, length_app. reflexivity.
Qed.

Lemma countEvents_zero (p : Event -> bool) (es : list Event) :
  countEvents p es = 0%nat <-> (forall e, In e es -> p e = false).
Proof.
  unfold countEvents. induction es as [|e es IH]; simpl.
  - split; [intros _ e [] | reflexivity].
  - destruct (p e) eqn:Hp; simpl.
    + split; [discriminate|]. intros H. specialize (H e (or_introl eq_refl)).
      congruence.
    + rewrite IH. split.
      * intros H e' [<-|Hin]; auto.
      * intros H e' Hin. apply H. now right.
Qed.

Arguments LocalKeyMaker.CreateMasterKey : simpl never.
Arguments LocalKeyMaker.loadRootPrivKey : simpl never.
Arguments LocalKeyMaker.deriveCoinType : simpl never.
Arguments LocalKeyMaker.DeriveCoinTypeKey : simpl never.
Arguments LocalKeyMaker.DeriveAccountKey : simpl never.

Section LocalKeyMakerFacts.
Context `{C : Collaborators}.

Implicit Types (w : World LocalKeyMaker) (scope : KeyScope) (ns : Bucket)
  (cryptoKeyPriv : EncryptorDecryptor) (account : Z).

(** The final derivation neither touches the maker nor the buffers, and
    talks to hdkeychain only. *)
Lemma deriveCoinType_final scope w :
  final (LocalKeyMaker.deriveCoinType scope w) = w.
Proof.
  unfold LocalKeyMaker.deriveCoinType. unfold_calls. unfold_go. cbn.
  destruct (rootPrivKey (this w)); cbn; [|reflexivity].
  destruct (Child _ _); cbn; [|reflexivity].
  destruct (Child _ _); cbn; [|reflexivity].
  destruct (Neuter _); reflexivity.
Qed.

Lemma deriveCoinType_events scope w :
  Forall (fun e => isStoreLookup e = false /\ isDecrypt e = false)
    (events (LocalKeyMaker.deriveCoinType scope w)).
Proof.
  unfold LocalKeyMaker.deriveCoinType. unfold_calls. unfold_go. cbn.
  destruct (rootPrivKey (this w)); cbn; [|constructor].
  destruct (Child _ _); cbn; [|repeat constructor].
  destruct (Child _ _); cbn; [|repeat constructor].
  destruct (Neuter _); cbn; repeat constructor.
Qed.

(** [DeriveCoinTypeKey] when the coin type is out of bounds. *)
Lemma DeriveCoinTypeKey_too_high scope ns cryptoKeyPriv w :
  (maxCoinType < Coin scope)%Z ->
  LocalKeyMaker.DeriveCoinTypeKey scope ns cryptoKeyPriv w =
  {| outcome :=
       Returns (None, None,
                Some (managerError ErrCoinTypeTooHigh errCoinTypeTooHigh None));
     final := w;
     events := [EvDeriveCoinTypeKey scope] |}.
Proof.
  intros Hc. unfold LocalKeyMaker.DeriveCoinTypeKey.
  bounds_test (Coin scope) maxCoinType. reflexivity.
Qed.

(** [DeriveCoinTypeKey] when the root key is cached. *)
Lemma DeriveCoinTypeKey_cached scope ns cryptoKeyPriv w k :
  (Coin scope <= maxCoinType)%Z ->
  rootPrivKey (this w) = Some k ->
  LocalKeyMaker.DeriveCoinTypeKey scope ns cryptoKeyPriv w =
  {| outcome := outcome (LocalKeyMaker.deriveCoinType scope w);
     final := w;
     events :=
       EvDeriveCoinTypeKey scope
       :: events (LocalKeyMaker.deriveCoinType scope w) |}.
Proof.
  intros Hc Hk. unfold LocalKeyMaker.DeriveCoinTypeKey.
  bounds_test (Coin scope) maxCoinType.
  unfold_go. cbn. rewrite Hk. cbn.
  pose proof (deriveCoinType_final scope w) as Hf.
  destruct (LocalKeyMaker.deriveCoinType scope w) as [o f es].
  cbn in *. subst f. destruct o; reflexivity.
Qed.

(** [DeriveCoinTypeKey] when the root key is not cached. *)
Lemma DeriveCoinTypeKey_uncached scope ns cryptoKeyPriv w :
  (Coin scope <= maxCoinType)%Z ->
  rootPrivKey (this w) = None ->
  LocalKeyMaker.DeriveCoinTypeKey scope ns cryptoKeyPriv w =
  let l := LocalKeyMaker.loadRootPrivKey ns cryptoKeyPriv w in
  match outcome l with
  | Returns (Some r) =>
      {| outcome := Returns r; final := final l;
         events := EvDeriveCoinTypeKey scope :: events l |}
  | Returns None =>
      let d := LocalKeyMaker.deriveCoinType scope (final l) in
      {| outcome := outcome d; final := final l;
         events := EvDeriveCoinTypeKey scope :: events l ++ events d |}
  | Panics p =>
      {| outcome := Panics p; final := final l;
         events := EvDeriveCoinTypeKey scope :: events l |}
  end.
Proof.
  intros Hc Hk. unfold LocalKeyMaker.DeriveCoinTypeKey.
  bounds_test (Coin scope) maxCoinType.
  unfold_go. cbn. rewrite Hk. cbn.
  destruct (LocalKeyMaker.loadRootPrivKey ns cryptoKeyPriv w) as [o f es].
  cbn. destruct o as [[r|]|p]; cbn.
  - rewrite app_nil_r. reflexivity.
  - pose proof (deriveCoinType_final scope f) as Hf.
    destruct (LocalKeyMaker.deriveCoinType scope f) as [o' f' es'].
    cbn in *. subst f'. destruct o'; reflexivity.
  - reflexivity.
Qed.

(** The lazy load, case by case on what the store and the decryptor
    answer. *)
Lemma loadRootPrivKey_fetch_error ns cryptoKeyPriv w priv pub e :
  fetchMasterHDKeys ns = (priv, pub, Some e) ->
  LocalKeyMaker.loadRootPrivKey ns cryptoKeyPriv w =
  {| outcome := Returns (Some (None, None, Some e)); final := w;
     events := [EvFetchMasterHDKeys] |}.
Proof.
  intros Hf. unfold LocalKeyMaker.loadRootPrivKey, call_fetchMasterHDKeys.
  rewrite Hf. reflexivity.
Qed.

Lemma loadRootPrivKey_watching_only ns cryptoKeyPriv w pub :
  fetchMasterHDKeys ns = (None, pub, None) ->
  LocalKeyMaker.loadRootPrivKey ns cryptoKeyPriv w =
  {| outcome :=
       Returns (Some (None, None, Some (managerError ErrWatchingOnly "" None)));
     final := w;
     events := [EvFetchMasterHDKeys] |}.
Proof.
  intros Hf. unfold LocalKeyMaker.loadRootPrivKey, call_fetchMasterHDKeys.
  rewrite Hf. reflexivity.
Qed.

Lemma loadRootPrivKey_locked ns cryptoKeyPriv w enc pub e :
  fetchMasterHDKeys ns = (Some enc, pub, None) ->
  Decrypt cryptoKeyPriv enc = Err e ->
  LocalKeyMaker.loadRootPrivKey ns cryptoKeyPriv w =
  {| outcome :=
       Returns (Some (None, None,
                      Some (managerError ErrLocked
                              "failed to decrypt master root serialized private key"
                              (Some (LibErr e)))));
     final := w;
     events := [EvFetchMasterHDKeys; EvDecrypt enc false] |}.
Proof.
  intros Hf Hd. unfold LocalKeyMaker.loadRootPrivKey, call_fetchMasterHDKeys,
    cryptoKeyPriv_Decrypt.
  rewrite Hf. cbn. rewrite Hd. reflexivity.
Qed.

(** After a successful decrypt the plaintext sits in the buffer
    [length (heap w)]; it is parsed, the result is stored in the receiver,
    and the buffer is zeroed, whatever the parse answered. *)
Lemma loadRootPrivKey_decrypted ns cryptoKeyPriv w enc pub plain :
  fetchMasterHDKeys ns = (Some enc, pub, None) ->
  Decrypt cryptoKeyPriv enc = Ok plain ->
  LocalKeyMaker.loadRootPrivKey ns cryptoKeyPriv w =
  let parsed := NewKeyFromString (string_of_list_byte plain) in
  {| outcome :=
       match parsed with
       | Ok _ => Returns None
       | Err e =>
           Returns (Some (None, None,
                          Some (managerError ErrKeyChain
                                  "failed to create master extended private key"
                                  (Some (LibErr e)))))
       end;
     final :=
       {| this := withRootPrivKey (this w)
                    (match parsed with
                     | Ok key => Some key
                     | Err _ => None
                     end);
          heap := heap w ++ [replicate (length plain) x00] |};
     events := [EvFetchMasterHDKeys; EvDecrypt enc true; EvNewKeyFromString;
                EvZeroBytes (length (heap w))] |}.
Proof.
  intros Hf Hd. unfold LocalKeyMaker.loadRootPrivKey, call_fetchMasterHDKeys,
    cryptoKeyPriv_Decrypt.
  rewrite Hf. cbn. rewrite Hd. cbn.
  rewrite !list_lookup_middle by reflexivity. cbn.
  rewrite insert_app_r_alt by reflexivity. rewrite Nat.sub_diag. cbn.
  destruct (NewKeyFromString _); reflexivity.
Qed.

(** Every run of [DeriveCoinTypeKey] is one of the seven paths. *)
Lemma DeriveCoinTypeKey_run scope ns cryptoKeyPriv w :
  CoinTypeRun scope ns cryptoKeyPriv w
    (LocalKeyMaker.DeriveCoinTypeKey scope ns cryptoKeyPriv w).
Proof.
  destruct (Z.gtb_spec (Coin scope) maxCoinType) as [Hhi|Hlo].
  { rewrite DeriveCoinTypeKey_too_high by assumption. now constructor. }
  destruct (rootPrivKey (this w)) as [k|] eqn:Hroot.
  { rewrite (DeriveCoinTypeKey_cached _ _ _ _ k) by assumption.
    now apply RunCached with k. }
  rewrite DeriveCoinTypeKey_uncached by assumption.
  destruct (fetchMasterHDKeys ns) as [[priv pub] [e|]] eqn:Hfetch.
  { rewrite (loadRootPrivKey_fetch_error _ _ _ priv pub e) by assumption.
    cbn. now apply RunFetchError with priv pub. }
  destruct priv as [enc|].
  2:{ rewrite (loadRootPrivKey_watching_only _ _ _ pub) by assumption.
      cbn. now apply RunWatchingOnly with pub. }
  destruct (Decrypt cryptoKeyPriv enc) as [plain|e] eqn:Hdec.
  2:{ rewrite (loadRootPrivKey_locked _ _ _ enc pub e) by assumption.
      cbn. now apply RunLocked with pub. }
  rewrite (loadRootPrivKey_decrypted _ _ _ enc pub plain) by assumption.
  cbn. destruct (NewKeyFromString _) as [key|e] eqn:Hparse; cbn.
  - now apply (RunLoaded _ _ _ _ enc pub plain key).
  - now apply (RunCorrupt _ _ _ _ enc pub plain e).
Qed.

(** The derivation from a cached root, in terms of the pure composition. *)
Lemma deriveCoinType_outcome scope w k :
  rootPrivKey (this w) = Some k ->
  outcome (LocalKeyMaker.deriveCoinType scope w) =
  Returns
    match spec_coin_type_from k scope with
    | Err e => (None, None, Some (LibErr e))
    | Ok coinTypePrivKey =>
        match Neuter coinTypePrivKey with
        | Err _ =>
            (None, None,
             Some (ErrorsNew "failed to convert cointype private key"))
        | Ok coinTypePubKey =>
            (Some coinTypePrivKey, Some coinTypePubKey, None)
        end
    end.
Proof.
  intros Hk. unfold LocalKeyMaker.deriveCoinType, spec_coin_type_from.
  unfold_calls. unfold_go. cbn. rewrite Hk. cbn.
  destruct (Child k _); cbn; [|reflexivity].
  destruct (Child _ _); cbn; [|reflexivity].
  destruct (Neuter _); reflexivity.
Qed.

(** A result of the derivation that carries an error carries no key. *)
Lemma deriveCoinType_error_nil scope w k priv pub e :
  rootPrivKey (this w) = Some k ->
  outcome (LocalKeyMaker.deriveCoinType scope w) = Returns (priv, pub, Some e) ->
  priv = None /\ pub = None.
Proof.
  intros Hk. rewrite (deriveCoinType_outcome scope w k Hk).
  destruct (spec_coin_type_from k scope) as [c|]; [destruct (Neuter c)|];
    intros [= <- <- _]; auto.
Qed.

(** [DeriveCoinTypeKey] never hands back a key together with an error. *)
Lemma DeriveCoinTypeKey_error_nil scope ns cryptoKeyPriv w priv pub e :
  outcome (LocalKeyMaker.DeriveCoinTypeKey scope ns cryptoKeyPriv w) =
    Returns (priv, pub, Some e) ->
  priv = None /\ pub = None.
Proof.
  destruct (DeriveCoinTypeKey_run scope ns cryptoKeyPriv w); cbn;
    try (intros [= <- <- _]; now auto).
  - now apply deriveCoinType_error_nil with k.
  - now apply deriveCoinType_error_nil with key.
Qed.

(** [CreateMasterKey], by the answers of hdkeychain. *)
Lemma CreateMasterKey_run w :
  LocalKeyMaker.CreateMasterKey w =
  match NewMaster (seed (this w)) (chainParams (this w)) with
  | Err _ =>
      {| outcome :=
           Returns (None, None,
                    Some (ErrorsNew "failed to derive master extended key"));
         final := w; events := [EvNewMaster] |}
  | Ok rootPrivKey =>
      match Neuter rootPrivKey with
      | Err _ =>
          {| outcome :=
               Returns (None, None,
                        Some (ErrorsNew "failed to neuter master extended key"));
             final := w; events := [EvNewMaster; EvNeuter] |}
      | Ok rootPubKey =>
          {| outcome := Returns (Some rootPrivKey, Some rootPubKey, None);
             final := {| this := withRootPrivKey (this w) (Some rootPrivKey);
                         heap := heap w |};
             events := [EvNewMaster; EvNeuter] |}
      end
  end.
Proof.
  unfold LocalKeyMaker.CreateMasterKey. unfold_calls. unfold_go. cbn.
  destruct (NewMaster _ _); cbn; [|reflexivity].
  destruct (Neuter _); reflexivity.
Qed.

(** [DeriveAccountKey] within bounds, by the run of the inner
    [DeriveCoinTypeKey]. *)
Lemma DeriveAccountKey_in_bounds scope account ns cryptoKeyPriv w :
  (account <= MaxAccountNum)%Z ->
  LocalKeyMaker.DeriveAccountKey scope account ns cryptoKeyPriv w =
  let r := LocalKeyMaker.DeriveCoinTypeKey scope ns cryptoKeyPriv w in
  let i := uint32_add account HardenedKeyStart in
  match outcome r with
  | Panics p => {| outcome := Panics p; final := final r; events := events r |}
  | Returns (None, _, _) =>
      {| outcome := Panics NilDereference; final := final r;
         events := events r |}
  | Returns (Some coinTypePrivKey, _, _) =>
      match Child coinTypePrivKey i with
      | Err e =>
          {| outcome := Returns (None, None, Some (LibErr e));
             final := final r; events := events r ++ [EvChild i] |}
      | Ok acctKeyPriv =>
          match Neuter acctKeyPriv with
          | Err _ =>
              {| outcome :=
                   Returns (None, None,
                            Some (ErrorsNew
                                    "failed to convert private key for account 0"));
                 final := final r; events := events r ++ [EvChild i; EvNeuter] |}
          | Ok acctKeyPub =>
              {| outcome := Returns (Some acctKeyPriv, Some acctKeyPub, None);
                 final := final r; events := events r ++ [EvChild i; EvNeuter] |}
          end
      end
  end.
Proof.
  intros Ha. unfold LocalKeyMaker.DeriveAccountKey.
  bounds_test account MaxAccountNum.
  unfold_calls. unfold_go. cbn.
  destruct (LocalKeyMaker.DeriveCoinTypeKey scope ns cryptoKeyPriv w)
    as [[[[[ck|] pub] err]|p] f es]; cbn; try reflexivity.
  - destruct (Child ck _); cbn; [|reflexivity].
    destruct (Neuter _); reflexivity.
  - rewrite app_nil_r. reflexivity.
Qed.

Lemma DeriveAccountKey_final scope account ns cryptoKeyPriv w :
  (account <= MaxAccountNum)%Z ->
  final (LocalKeyMaker.DeriveAccountKey scope account ns cryptoKeyPriv w) =
  final (LocalKeyMaker.DeriveCoinTypeKey scope ns cryptoKeyPriv w).
Proof.
  intros Ha. rewrite DeriveAccountKey_in_bounds by assumption. cbn.
  destruct (outcome _) as [[[[ck|] pub] err]|p]; try reflexivity.
  destruct (Child ck _); [|reflexivity]. destruct (Neuter _); reflexivity.
Qed.

Lemma DeriveAccountKey_too_high scope account ns cryptoKeyPriv w :
  (MaxAccountNum < account)%Z ->
  LocalKeyMaker.DeriveAccountKey scope account ns cryptoKeyPriv w =
  {| outcome :=
       Returns (None, None,
                Some (managerError ErrAccountNumTooHigh errAcctTooHigh None));
     final := w; events := [] |}.
Proof.
  intros Ha. unfold LocalKeyMaker.DeriveAccountKey.
  bounds_test account MaxAccountNum. reflexivity.
Qed.

Lemma deriveCoinType_counts scope w :
  storeLookups (events (LocalKeyMaker.deriveCoinType scope w)) = 0 /\
  decrypts (events (LocalKeyMaker.deriveCoinType scope w)) = 0.
Proof.
  pose proof (deriveCoinType_events scope w) as H.
  rewrite List.Forall_forall in H.
  split; apply countEvents_zero; intros e He; now apply H.
Qed.

Lemma deriveCoinType_no_decrypt scope w ct ok :
  ~ In (EvDecrypt ct ok) (events (LocalKeyMaker.deriveCoinType scope w)).
Proof.
  intros Hin. pose proof (deriveCoinType_events scope w) as H.
  rewrite List.Forall_forall in H. now destruct (H _ Hin).
Qed.

(** A [Decrypt] event in a run of [DeriveCoinTypeKey] tells which path the
    run took: the scope was in bounds, nothing was cached, the store held
    the record that was decrypted, and the event reports what the decryptor
    answered. *)
Lemma DeriveCoinTypeKey_decrypt_inv scope ns cryptoKeyPriv w ct ok :
  In (EvDecrypt ct ok)
     (events (LocalKeyMaker.DeriveCoinTypeKey scope ns cryptoKeyPriv w)) ->
  (Coin scope <= maxCoinType)%Z /\
  rootPrivKey (this w) = None /\
  (exists pub, fetchMasterHDKeys ns = (Some ct, pub, None)) /\
  match Decrypt cryptoKeyPriv ct with
  | Ok _ => ok = true
  | Err _ => ok = false
  end.
Proof.
  destruct (DeriveCoinTypeKey_run scope ns cryptoKeyPriv w) as
    [Hhi|k Hlo Hk|priv pub e Hlo Hk Hf|pub Hlo Hk Hf|enc pub e Hlo Hk Hf Hd
    |enc pub plain e Hlo Hk Hf Hd Hp|enc pub plain key Hlo Hk Hf Hd Hp w'];
    cbn; intros Hin.
  - destruct Hin as [[=]|[]].
  - destruct Hin as [[=]|Hin]. now apply deriveCoinType_no_decrypt in Hin.
  - destruct Hin as [[=]|[[=]|[]]].
  - destruct Hin as [[=]|[[=]|[]]].
  - destruct Hin as [[=]|[[=]|[[= <- <-]|[]]]].
    rewrite Hd. eauto 6.
  - destruct Hin as [[=]|[[=]|[[= <- <-]|[[=]|[[=]|[]]]]]].
    rewrite Hd. eauto 6.
  - destruct Hin as [[=]|[[=]|[[= <- <-]|[[=]|[[=]|Hin]]]]].
    + rewrite Hd. eauto 6.
    + now apply deriveCoinType_no_decrypt in Hin.
Qed.

(** C2: for every maker state and every scope whose coin type exceeds
    [maxCoinType], [DeriveCoinTypeKey] returns the [ErrCoinTypeTooHigh]
    error and no key pair, performs no store lookup and no decrypt, and
    leaves the cached root key (indeed the whole state) as it was. *)
Theorem C2_coin_type_too_high scope ns cryptoKeyPriv w :
  (maxCoinType < Coin scope)%Z ->
  let r := LocalKeyMaker.DeriveCoinTypeKey scope ns cryptoKeyPriv w in
  outcome r =
    Returns (None, None,
             Some (managerError ErrCoinTypeTooHigh errCoinTypeTooHigh None)) /\
  storeLookups (events r) = 0 /\
  decrypts (events r) = 0 /\
  rootPrivKey (this (final r)) = rootPrivKey (this w) /\
  final r = w.
Proof.
  intros Hc r. subst r. rewrite DeriveCoinTypeKey_too_high by assumption.
  cbn. auto.
Qed.

(** C3: for every maker state, scope and account above [MaxAccountNum],
    [DeriveAccountKey] returns the [ErrAccountNumTooHigh] error before
    anything else happens: the run has no event at all (no entry into
    [DeriveCoinTypeKey], no store lookup, no decrypt, no child derivation)
    and the state is untouched. *)
Theorem C3_account_too_high scope account ns cryptoKeyPriv w :
  (MaxAccountNum < account)%Z ->
  let r := LocalKeyMaker.DeriveAccountKey scope account ns cryptoKeyPriv w in
  outcome r =
    Returns (None, None,
             Some (managerError ErrAccountNumTooHigh errAcctTooHigh None)) /\
  events r = [] /\
  final r = w.
Proof.
  intros Ha r. subst r. rewrite DeriveAccountKey_too_high by assumption.
  cbn. auto.
Qed.

(** C4: when no root key is cached, the scope is in bounds and the store
    lookup finds no encrypted private record, [DeriveCoinTypeKey] returns
    the [ErrWatchingOnly] error and [Decrypt] is never invoked. *)
Theorem C4_watching_only scope ns cryptoKeyPriv w pub :
  rootPrivKey (this w) = None ->
  (Coin scope <= maxCoinType)%Z ->
  fetchMasterHDKeys ns = (None, pub, None) ->
  let r := LocalKeyMaker.DeriveCoinTypeKey scope ns cryptoKeyPriv w in
  outcome r =
    Returns (None, None, Some (managerError ErrWatchingOnly "" None)) /\
  decrypts (events r) = 0 /\
  (forall ct ok, ~ In (EvDecrypt ct ok) (events r)).
Proof.
  intros Hk Hc Hf r. subst r.
  rewrite DeriveCoinTypeKey_uncached by assumption.
  rewrite (loadRootPrivKey_watching_only _ _ _ pub) by assumption. cbn.
  repeat split. intros ct ok [[=]|[[=]|[]]].
Qed.

(** C5: when no root key is cached, the store holds an encrypted private
    record and the decryptor's [Decrypt] fails on it during the call,
    [DeriveCoinTypeKey] returns the [ErrLocked] error and the cached root
    key is still absent afterwards, so that a later call with a decryptor
    that works loads the key and returns the coin-type pair. *)
Theorem C5_locked scope ns cryptoKeyPriv w enc pub :
  rootPrivKey (this w) = None ->
  fetchMasterHDKeys ns = (Some enc, pub, None) ->
  let r := LocalKeyMaker.DeriveCoinTypeKey scope ns cryptoKeyPriv w in
  In (EvDecrypt enc false) (events r) ->
  (exists e,
      Decrypt cryptoKeyPriv enc = Err e /\
      outcome r =
        Returns (None, None,
                 Some (managerError ErrLocked
                         "failed to decrypt master root serialized private key"
                         (Some (LibErr e))))) /\
  rootPrivKey (this (final r)) = None /\
  (forall scope' working plain key coinPriv coinPub,
      (Coin scope' <= maxCoinType)%Z ->
      Decrypt working enc = Ok plain ->
      NewKeyFromString (string_of_list_byte plain) = Ok key ->
      spec_coin_type_from key scope' = Ok coinPriv ->
      Neuter coinPriv = Ok coinPub ->
      let r' := LocalKeyMaker.DeriveCoinTypeKey scope' ns working (final r) in
      outcome r' = Returns (Some coinPriv, Some coinPub, None) /\
      rootPrivKey (this (final r')) = Some key).
Proof.
  intros Hk Hf r Hin. subst r.
  destruct (DeriveCoinTypeKey_decrypt_inv _ _ _ _ _ _ Hin) as (Hlo & _ & _ & Hd).
  destruct (Decrypt cryptoKeyPriv enc) as [plain|e] eqn:Hdec; [discriminate|].
  rewrite DeriveCoinTypeKey_uncached by assumption.
  rewrite (loadRootPrivKey_locked _ _ _ enc pub e) by assumption. cbn.
  split; [eauto|]. split; [assumption|].
  intros scope' working plain key coinPriv coinPub Hlo' Hd' Hp Hc Hn.
  rewrite DeriveCoinTypeKey_uncached by assumption.
  rewrite (loadRootPrivKey_decrypted _ _ _ enc pub plain) by assumption.
  cbn. rewrite Hp. cbn. split; [|reflexivity].
  erewrite deriveCoinType_outcome by reflexivity.
  rewrite Hc, Hn. reflexivity.
Qed.

(** C8: on every path of [DeriveCoinTypeKey] that follows a successful
    decrypt of the stored root key, the buffer that received the plaintext
    holds only zero bytes when the method returns, whether the parse
    succeeded or failed with [ErrKeyChain]; [zero.Bytes] is called on it
    during the run. *)
Theorem C8_plaintext_erased scope ns cryptoKeyPriv w enc :
  let r := LocalKeyMaker.DeriveCoinTypeKey scope ns cryptoKeyPriv w in
  In (EvDecrypt enc true) (events r) ->
  exists plain,
    Decrypt cryptoKeyPriv enc = Ok plain /\
    heap (final r) = (heap w ++ [replicate (length plain) x00])%list /\
    erased (heap (final r)) (length (heap w)) /\
    In (EvZeroBytes (length (heap w))) (events r) /\
    (forall e,
        NewKeyFromString (string_of_list_byte plain) = Err e ->
        outcome r =
          Returns (None, None,
                   Some (managerError ErrKeyChain
                           "failed to create master extended private key"
                           (Some (LibErr e))))) /\
    (forall key,
        NewKeyFromString (string_of_list_byte plain) = Ok key ->
        rootPrivKey (this (final r)) = Some key).
Proof.
  intros r Hin. subst r.
  destruct (DeriveCoinTypeKey_decrypt_inv _ _ _ _ _ _ Hin)
    as (Hlo & Hk & [pub Hf] & Hd).
  destruct (Decrypt cryptoKeyPriv enc) as [plain|e] eqn:Hdec; [|discriminate].
  exists plain. split; [reflexivity|].
  rewrite DeriveCoinTypeKey_uncached by assumption.
  rewrite (loadRootPrivKey_decrypted _ _ _ enc pub plain) by assumption.
  assert (Hz : erased (heap w ++ [replicate (length plain) x00])%list
                 (length (heap w))).
  { exists (replicate (length plain) x00). split.
    - now apply list_lookup_middle.
    - apply Forall_replicate. reflexivity. }
  cbn. destruct (NewKeyFromString _) as [key|e]; cbn.
  - split; [reflexivity|]. split; [exact Hz|].
    split; [do 4 right; now left|].
    split; [discriminate|]. intros ? [= <-]. reflexivity.
  - split; [reflexivity|]. split; [exact Hz|].
    split; [do 4 right; now left|].
    split; [intros ? [= <-]; reflexivity|]. discriminate.
Qed.

(** C10: when [CreateMasterKey] returns an error, whichever of its two
    steps failed, the maker is exactly as before the call, the cached root
    key included; a maker that holds a root key still derives from it, with
    no store lookup and no decrypt. *)
Theorem C10_CreateMasterKey_error_keeps_root w priv pub e :
  outcome (LocalKeyMaker.CreateMasterKey w) = Returns (priv, pub, Some e) ->
  let w' := final (LocalKeyMaker.CreateMasterKey w) in
  rootPrivKey (this w') = rootPrivKey (this w) /\
  w' = w /\
  (forall k scope ns cryptoKeyPriv coinPriv coinPub,
      rootPrivKey (this w) = Some k ->
      (Coin scope <= maxCoinType)%Z ->
      spec_coin_type_from k scope = Ok coinPriv ->
      Neuter coinPriv = Ok coinPub ->
      let r := LocalKeyMaker.DeriveCoinTypeKey scope ns cryptoKeyPriv w' in
      outcome r = Returns (Some coinPriv, Some coinPub, None) /\
      storeLookups (events r) = 0 /\
      decrypts (events r) = 0).
Proof.
  intros Hout w'. subst w'. revert Hout. rewrite CreateMasterKey_run.
  destruct (NewMaster _ _) as [m|]; [destruct (Neuter m)|]; cbn;
    intros [= <- <- <-];
    (split; [reflexivity|]; split; [reflexivity|]);
    intros k scope ns cryptoKeyPriv coinPriv coinPub Hk Hlo Hc Hn;
    rewrite (DeriveCoinTypeKey_cached _ _ _ _ k) by assumption; cbn;
    rewrite (deriveCoinType_outcome _ _ k Hk), Hc, Hn;
    (split; [reflexivity|]); apply deriveCoinType_counts.
Qed.

(** No single operation clears a cached root key. *)
Lemma runOp_keeps_root (op : LocalOp) w :
  is_Some (rootPrivKey (this w)) ->
  is_Some (rootPrivKey (this (final (runOp op w)))).
Proof.
  intros Hs.
  assert (Hcoin : forall scope ns cryptoKeyPriv,
    final (LocalKeyMaker.DeriveCoinTypeKey scope ns cryptoKeyPriv w) = w).
  { intros scope ns cryptoKeyPriv.
    destruct (DeriveCoinTypeKey_run scope ns cryptoKeyPriv w) as
      [Hhi|k Hlo Hk|priv pub e Hlo Hk Hf|pub Hlo Hk Hf|enc pub e Hlo Hk Hf Hd
      |enc pub plain e Hlo Hk Hf Hd Hp|enc pub plain key Hlo Hk Hf Hd Hp w'];
      try reflexivity; rewrite Hk in Hs; now destruct Hs. }
  destruct op as [|scope ns cryptoKeyPriv|scope account ns cryptoKeyPriv]; cbn.
  - rewrite CreateMasterKey_run.
    destruct (NewMaster _ _) as [m|]; [destruct (Neuter m)|]; cbn; eauto.
  - now rewrite Hcoin.
  - destruct (Z.gtb_spec account MaxAccountNum) as [Hhi|Hlo].
    + now rewrite DeriveAccountKey_too_high.
    + now rewrite DeriveAccountKey_final, Hcoin.
Qed.

(** With a cached root key and a scope in bounds, [DeriveCoinTypeKey]
    neither looks the store up nor decrypts. *)
Lemma DeriveCoinTypeKey_cached_counts scope ns cryptoKeyPriv w :
  is_Some (rootPrivKey (this w)) ->
  storeLookups
    (events (LocalKeyMaker.DeriveCoinTypeKey scope ns cryptoKeyPriv w)) = 0 /\
  decrypts
    (events (LocalKeyMaker.DeriveCoinTypeKey scope ns cryptoKeyPriv w)) = 0.
Proof.
  intros [k Hk].
  destruct (Z.gtb_spec (Coin scope) maxCoinType) as [Hhi|Hlo].
  - rewrite DeriveCoinTypeKey_too_high by assumption. cbn. auto.
  - rewrite (DeriveCoinTypeKey_cached _ _ _ _ k) by assumption.
    apply (deriveCoinType_counts scope w).
Qed.

(** C7: once the cached root key is set no sequence of operations of the
    instance clears it; with the key cached, [DeriveCoinTypeKey] on a scope
    in bounds performs no store lookup and no decrypt; and two calls of
    [DeriveCoinTypeKey] on a maker that starts without a cached key, the
    first of which sets the cache, make exactly one store lookup and one
    decrypt between them, none of them in the second call. *)
Theorem C7_cache_is_permanent w :
  (forall ops,
      is_Some (rootPrivKey (this w)) ->
      is_Some (rootPrivKey (this (runOps ops w)))) /\
  (forall scope ns cryptoKeyPriv,
      is_Some (rootPrivKey (this w)) ->
      (Coin scope <= maxCoinType)%Z ->
      let r := LocalKeyMaker.DeriveCoinTypeKey scope ns cryptoKeyPriv w in
      storeLookups (events r) = 0 /\ decrypts (events r) = 0) /\
  (forall scope1 ns1 key1 scope2 ns2 key2,
      rootPrivKey (this w) = None ->
      let r1 := LocalKeyMaker.DeriveCoinTypeKey scope1 ns1 key1 w in
      let r2 := LocalKeyMaker.DeriveCoinTypeKey scope2 ns2 key2 (final r1) in
      is_Some (rootPrivKey (this (final r1))) ->
      storeLookups (events r1 ++ events r2) = 1 /\
      decrypts (events r1 ++ events r2) = 1 /\
      storeLookups (events r2) = 0 /\
      decrypts (events r2) = 0 /\
      rootPrivKey (this (final r2)) = rootPrivKey (this (final r1))).
Proof.
  split; [|split].
  - intros ops. revert w. induction ops as [|op ops IH]; intros w Hs.
    + exact Hs.
    + cbn. apply IH. now apply runOp_keeps_root.
  - intros scope ns cryptoKeyPriv Hs _ r. subst r.
    now apply DeriveCoinTypeKey_cached_counts.
  - intros scope1 ns1 key1 scope2 ns2 key2 Hnone r1 r2 Hs.
    assert (H2 : storeLookups (events r2) = 0 /\ decrypts (events r2) = 0)
      by now apply DeriveCoinTypeKey_cached_counts.
    assert (Hkeep : rootPrivKey (this (final r2)) =
                    rootPrivKey (this (final r1))).
    { subst r2. destruct Hs as [k Hk].
      destruct (Z.gtb_spec (Coin scope2) maxCoinType) as [Hhi|Hlo].
      - now rewrite DeriveCoinTypeKey_too_high.
      - now rewrite (DeriveCoinTypeKey_cached _ _ _ _ k). }
    destruct H2 as [Hl2 Hd2].
    unfold storeLookups, decrypts in *. rewrite !countEvents_app, Hl2, Hd2.
    clearbody r2. subst r1. revert Hs.
    destruct (DeriveCoinTypeKey_run scope1 ns1 key1 w) as
      [Hhi|k Hlo Hk|priv pub e Hlo Hk Hf|pub Hlo Hk Hf|enc pub e Hlo Hk Hf Hd
      |enc pub plain e Hlo Hk Hf Hd Hp|enc pub plain key Hlo Hk Hf Hd Hp w'];
      cbn; intros Hs;
      try (rewrite Hnone in Hs; now destruct Hs);
      try congruence.
    + now destruct Hs.
    + destruct (deriveCoinType_counts scope1 w') as [Hl1 Hd1].
      unfold storeLookups, decrypts, countEvents in *. cbn.
      rewrite Hl1, Hd1. auto.
Qed.

(** An error of the inner [DeriveCoinTypeKey] never reaches the caller of
    [DeriveAccountKey]: the nil key it comes with is dereferenced. *)
Lemma DeriveAccountKey_inner_error scope account ns cryptoKeyPriv w priv pub e :
  (account <= MaxAccountNum)%Z ->
  outcome (LocalKeyMaker.DeriveCoinTypeKey scope ns cryptoKeyPriv w) =
    Returns (priv, pub, Some e) ->
  outcome (LocalKeyMaker.DeriveAccountKey scope account ns cryptoKeyPriv w) =
    Panics NilDereference.
Proof.
  intros Ha Hr. rewrite DeriveAccountKey_in_bounds by assumption. cbn zeta.
  destruct (DeriveCoinTypeKey_error_nil _ _ _ _ _ _ _ Hr) as [-> ->].
  rewrite Hr. reflexivity.
Qed.

(** C6: on a maker built from seed [S] and chain parameters [P] on which
    [CreateMasterKey] has succeeded, [DeriveAccountKey] on a scope and an
    account in bounds returns the private key
    [NewMaster(S, P).Child(purpose + H).Child(coin + H).Child(account + H)]:
    any private key it returns is that one, and it does return it whenever
    the composition and the two neuterings of the method succeed. *)
Theorem C6_account_key_is_manual_composition (S : bytes) (P : option Params)
  (h : list bytes) scope account ns cryptoKeyPriv root rootPub :
  let w0 := {| this := LocalKeyMaker.NewLocalKeyMakerFromSeed S P;
               heap := h |} in
  outcome (LocalKeyMaker.CreateMasterKey w0) =
    Returns (Some root, Some rootPub, None) ->
  (Coin scope <= maxCoinType)%Z ->
  (account <= MaxAccountNum)%Z ->
  let r := LocalKeyMaker.DeriveAccountKey scope account ns cryptoKeyPriv
             (final (LocalKeyMaker.CreateMasterKey w0)) in
  (forall priv pub err,
      outcome r = Returns (Some priv, pub, err) ->
      spec_manual_account_key S P scope account = Ok priv) /\
  (forall coinPriv coinPub priv pub,
      spec_manual_coin_type_key S P scope = Ok coinPriv ->
      Neuter coinPriv = Ok coinPub ->
      spec_manual_account_key S P scope account = Ok priv ->
      Neuter priv = Ok pub ->
      outcome r = Returns (Some priv, Some pub, None)).
Proof.
  intros w0 Hcreate Hc Ha r. subst r. revert Hcreate.
  rewrite CreateMasterKey_run. subst w0. cbn.
  destruct (NewMaster S P) as [m|] eqn:Hm; [|discriminate].
  destruct (Neuter m) as [mp|] eqn:Hn; [|discriminate].
  cbn. intros [= -> ->].
  rewrite DeriveAccountKey_in_bounds by assumption. cbn zeta.
  rewrite (DeriveCoinTypeKey_cached _ _ _ _ root) by (assumption || reflexivity).
  cbn. rewrite (deriveCoinType_outcome _ _ root) by reflexivity.
  unfold spec_manual_account_key, spec_manual_coin_type_key. rewrite Hm.
  destruct (spec_coin_type_from root scope) as [ck|e] eqn:Hck.
  2:{ cbn. split; [discriminate|]. intros ? ? ? ? [=]. }
  destruct (Neuter ck) as [cp|e] eqn:Hcp.
  2:{ cbn. split; [discriminate|]. intros ? ? ? ? [= <-]. congruence. }
  destruct (Child ck _) as [ak|e] eqn:Hak.
  2:{ cbn. split; [discriminate|]. intros ? ? ? ? _ _ [=]. }
  destruct (Neuter ak) as [ap|e] eqn:Hap; cbn; split.
  - now intros priv pub err [= <- _ _].
  - intros coinPriv coinPub priv pub _ _ [= <-] Hp. congruence.
  - discriminate.
  - intros coinPriv coinPub priv pub _ _ [= <-] Hp. congruence.
Qed.

End LocalKeyMakerFacts.

(** ** More on the local key maker *)

Section LocalKeyMakerMore.
Context `{C : Collaborators}.

Implicit Types (w : World LocalKeyMaker) (scope : KeyScope) (ns : Bucket)
  (cryptoKeyPriv : EncryptorDecryptor) (account : Z) (op : LocalOp).


(** What the derivation from a cached root returns is well formed, and the
    public half of a pair is the neutered private half. *)
Lemma deriveCoinType_shape scope w k res :
  rootPrivKey (this w) = Some k ->
  outcome (LocalKeyMaker.deriveCoinType scope w) = Returns res ->
  wellFormed res /\
  (forall priv pub err, res = (Some priv, pub, err) ->
     exists p, pub = Some p /\ err = None /\ Neuter priv = Ok p).
Proof.
  intros Hk. rewrite (deriveCoinType_outcome _ _ k Hk).
  destruct (spec_coin_type_from k scope) as [c|e];
    [destruct (Neuter c) as [p|e] eqn:Hn|]; intros [= <-]; split;
    try (right; eauto; fail); try (left; eauto; fail);
    intros priv pub err [= <- <- <-]; eauto.
Qed.

Lemma DeriveCoinTypeKey_shape scope ns cryptoKeyPriv w res :
  outcome (LocalKeyMaker.DeriveCoinTypeKey scope ns cryptoKeyPriv w) =
    Returns res ->
  wellFormed res /\
  (forall priv pub err, res = (Some priv, pub, err) ->
     exists p, pub = Some p /\ err = None /\ Neuter priv = Ok p).
Proof.
  destruct (DeriveCoinTypeKey_run scope ns cryptoKeyPriv w) as
    [Hhi|k Hlo Hk|priv pub e Hlo Hk Hf|pub Hlo Hk Hf|enc pub e Hlo Hk Hf Hd
    |enc pub plain e Hlo Hk Hf Hd Hp|enc pub plain key Hlo Hk Hf Hd Hp w'];
    cbn;
    try (intros [= <-]; split; [right; eauto|discriminate]).
  - now apply deriveCoinType_shape with k.
  - now apply deriveCoinType_shape with key.
Qed.

Lemma runOp_shape op w res :
  outcome (runOp op w) = Returns res ->
  wellFormed res /\
  (forall priv pub err, res = (Some priv, pub, err) ->
     exists p, pub = Some p /\ err = None /\ Neuter priv = Ok p).
Proof.
  destruct op as [|scope ns cryptoKeyPriv|scope account ns cryptoKeyPriv]; cbn.
  - rewrite CreateMasterKey_run.
    destruct (NewMaster _ _) as [m|]; [destruct (Neuter m) as [p|] eqn:Hn|];
      cbn; intros [= <-]; split;
      try (right; eauto; fail); try (left; eauto; fail);
      intros priv pub err [= <- <- <-]; eauto.
  - apply DeriveCoinTypeKey_shape.
  - destruct (Z.gtb_spec account MaxAccountNum) as [Hhi|Hlo].
    { rewrite DeriveAccountKey_too_high by assumption. cbn.
      intros [= <-]. split; [right; eauto|discriminate]. }
    rewrite DeriveAccountKey_in_bounds by assumption. cbn zeta.
    destruct (outcome (LocalKeyMaker.DeriveCoinTypeKey _ _ _ _))
      as [[[[ck|] pub] err]|p]; try discriminate.
    destruct (Child ck _) as [ak|e];
      [destruct (Neuter ak) as [ap|e] eqn:Hn|];
      cbn; intros [= <-]; split;
      try (right; eauto; fail); try (left; eauto; fail);
      intros priv pub' err' [= <- <- <-]; eauto.
Qed.

(** X1: calling [CreateMasterKey] again changes nothing: the second call
    returns what the first returned and ends in the state the first ended
    in, whether the first succeeded or failed. *)
Theorem X1_CreateMasterKey_repeatable w :
  let r1 := LocalKeyMaker.CreateMasterKey w in
  let r2 := LocalKeyMaker.CreateMasterKey (final r1) in
  outcome r2 = outcome r1 /\ final r2 = final r1 /\ events r2 = events r1.
Proof.
  cbv zeta. rewrite !CreateMasterKey_run.
  destruct (NewMaster (seed (this w)) (chainParams (this w))) as [m|e] eqn:Hm.
  - destruct (Neuter m) as [p|e] eqn:Hn; cbn; rewrite Hm, Hn; cbn; auto.
  - cbn. rewrite Hm. auto.
Qed.

(** X2: whenever an operation of the local key maker returns a private
    key, it returns a public key with it and no error, and the public key
    is the private key neutered. *)
Theorem X2_returned_pair_is_consistent op w priv pub err :
  outcome (runOp op w) = Returns (Some priv, pub, err) ->
  exists p, pub = Some p /\ err = None /\ Neuter priv = Ok p.
Proof.
  intros Hr. destruct (runOp_shape op w _ Hr) as [_ H]. now apply H.
Qed.

(** X3: whatever an operation of the local key maker returns has one of two
    shapes: both keys and a nil error, or nil keys and an error. *)
Theorem X3_result_is_well_formed op w res :
  outcome (runOp op w) = Returns res -> wellFormed res.
Proof.
  intros Hr. now destruct (runOp_shape op w _ Hr).
Qed.


(** How a run of [DeriveCoinTypeKey] changes the world: the struct changes
    in its root key at most, and the heap gains at most one buffer, which
    is wiped. *)
Lemma DeriveCoinTypeKey_state scope ns cryptoKeyPriv w :
  let r := LocalKeyMaker.DeriveCoinTypeKey scope ns cryptoKeyPriv w in
  (exists k, this (final r) = withRootPrivKey (this w) k) /\
  (heap (final r) = heap w \/
   exists n, heap (final r) = (heap w ++ [replicate n x00])%list).
Proof.
  assert (Hsame : this w = withRootPrivKey (this w) (rootPrivKey (this w)))
    by now destruct (this w).
  destruct (DeriveCoinTypeKey_run scope ns cryptoKeyPriv w) as
    [Hhi|k Hlo Hk|priv pub e Hlo Hk Hf|pub Hlo Hk Hf|enc pub e Hlo Hk Hf Hd
    |enc pub plain e Hlo Hk Hf Hd Hp|enc pub plain key Hlo Hk Hf Hd Hp w'];
    cbn; eauto.
Qed.

Lemma runOp_state op w :
  (exists k, this (final (runOp op w)) = withRootPrivKey (this w) k) /\
  (heap (final (runOp op w)) = heap w \/
   exists n, heap (final (runOp op w)) = (heap w ++ [replicate n x00])%list).
Proof.
  assert (Hsame : this w = withRootPrivKey (this w) (rootPrivKey (this w)))
    by now destruct (this w).
  destruct op as [|scope ns cryptoKeyPriv|scope account ns cryptoKeyPriv]; cbn.
  - rewrite CreateMasterKey_run.
    destruct (NewMaster _ _) as [m|]; [destruct (Neuter m)|]; cbn; eauto.
  - apply DeriveCoinTypeKey_state.
  - destruct (Z.gtb_spec account MaxAccountNum) as [Hhi|Hlo].
    + rewrite DeriveAccountKey_too_high by assumption. cbn. eauto.
    + rewrite DeriveAccountKey_final by assumption.
      apply DeriveCoinTypeKey_state.
Qed.

(** X5: loading lazily and being given the key come to the same: when the
    store holds a record that decrypts and parses to [key], the first
    [DeriveCoinTypeKey] of an uncached maker returns what a maker made by
    [NewLocalKeyMaker(key)] returns for the same scope, and ends with [key]
    cached. *)
Theorem X5_lazy_load_equals_cached scope ns cryptoKeyPriv w enc pub plain key
  ns' cryptoKeyPriv' (h' : list bytes) :
  (Coin scope <= maxCoinType)%Z ->
  rootPrivKey (this w) = None ->
  fetchMasterHDKeys ns = (Some enc, pub, None) ->
  Decrypt cryptoKeyPriv enc = Ok plain ->
  NewKeyFromString (string_of_list_byte plain) = Ok key ->
  let r := LocalKeyMaker.DeriveCoinTypeKey scope ns cryptoKeyPriv w in
  let given :=
    LocalKeyMaker.DeriveCoinTypeKey scope ns' cryptoKeyPriv'
      {| this := fst (LocalKeyMaker.NewLocalKeyMaker (Some key));
         heap := h' |} in
  outcome r = outcome given /\
  rootPrivKey (this (final r)) = Some key.
Proof.
  intros Hlo Hk Hf Hd Hp r given. subst r given.
  rewrite DeriveCoinTypeKey_uncached by assumption.
  rewrite (loadRootPrivKey_decrypted _ _ _ enc pub plain) by assumption.
  rewrite (DeriveCoinTypeKey_cached _ _ _ _ key) by (assumption || reflexivity).
  cbn. rewrite Hp. cbn.
  rewrite !(deriveCoinType_outcome _ _ key) by reflexivity. auto.
Qed.

(** X6: once a call of [DeriveCoinTypeKey] has left the root key cached, a
    second call for the same scope returns the same result, whatever store
    and decryptor it is given, and leaves the state as it is. *)
Theorem X6_second_call_same_result scope ns1 key1 ns2 key2 w :
  let r1 := LocalKeyMaker.DeriveCoinTypeKey scope ns1 key1 w in
  let r2 := LocalKeyMaker.DeriveCoinTypeKey scope ns2 key2 (final r1) in
  is_Some (rootPrivKey (this (final r1))) ->
  outcome r2 = outcome r1 /\ final r2 = final r1.
Proof.
  intros r1 r2. subst r1 r2.
  destruct (DeriveCoinTypeKey_run scope ns1 key1 w) as
    [Hhi|k Hlo Hk|priv pub e Hlo Hk Hf|pub Hlo Hk Hf|enc pub e Hlo Hk Hf Hd
    |enc pub plain e Hlo Hk Hf Hd Hp|enc pub plain key Hlo Hk Hf Hd Hp w'];
    cbn; intros Hs;
    try (rewrite Hk in Hs; now destruct Hs).
  - rewrite DeriveCoinTypeKey_too_high by assumption. auto.
  - rewrite (DeriveCoinTypeKey_cached _ _ _ _ k) by assumption. auto.
  - now destruct Hs.
  - rewrite (DeriveCoinTypeKey_cached _ _ _ _ key) by (assumption || reflexivity).
    auto.
Qed.

(** X7: no sequence of operations changes the seed, the chain parameters
    or the manager of a local key maker; the root key is the only field
    they write. *)
Theorem X7_only_root_key_is_written (ops : list LocalOp) w :
  seed (this (runOps ops w)) = seed (this w) /\
  chainParams (this (runOps ops w)) = chainParams (this w) /\
  manager (this (runOps ops w)) = manager (this w).
Proof.
  revert w. induction ops as [|op ops IH]; intros w; cbn; [auto|].
  destruct (IH (final (runOp op w))) as (-> & -> & ->).
  destruct (runOp_state op w) as [[k ->] _]. cbn. auto.
Qed.

(** X8: no sequence of operations changes a buffer that existed before,
    and every buffer the operations leave behind is wiped: no decrypted
    plaintext stays in a buffer. *)
Theorem X8_heap_holds_no_plaintext (ops : list LocalOp) w :
  exists added,
    heap (runOps ops w) = (heap w ++ added)%list /\ Forall wiped added.
Proof.
  revert w. induction ops as [|op ops IH]; intros w; cbn.
  - exists []. rewrite app_nil_r. split; [reflexivity|constructor].
  - destruct (IH (final (runOp op w))) as (added & -> & Hw).
    destruct (runOp_state op w) as [_ [->|[n ->]]].
    + eauto.
    + exists (replicate n x00 :: added). rewrite <- app_assoc. cbn.
      split; [reflexivity|]. constructor; [|assumption].
      apply Forall_replicate. reflexivity.
Qed.

(** The events of [DeriveAccountKey] are those of the inner
    [DeriveCoinTypeKey] followed by calls to hdkeychain. *)
Lemma DeriveAccountKey_events scope account ns cryptoKeyPriv w :
  (account <= MaxAccountNum)%Z ->
  exists tail,
    events (LocalKeyMaker.DeriveAccountKey scope account ns cryptoKeyPriv w) =
    (events (LocalKeyMaker.DeriveCoinTypeKey scope ns cryptoKeyPriv w)
       ++ tail)%list /\
    (tail = [] \/
     tail = [EvChild (uint32_add account HardenedKeyStart)] \/
     tail = [EvChild (uint32_add account HardenedKeyStart); EvNeuter]).
Proof.
  intros Ha. rewrite DeriveAccountKey_in_bounds by assumption. cbn zeta.
  destruct (outcome _) as [[[[ck|] pub] err]|p]; cbn;
    try (exists []; rewrite app_nil_r; now auto).
  destruct (Child ck _) as [ak|e]; [destruct (Neuter ak)|]; cbn; eauto 6.
Qed.

(** X9: the decryptor is called on nothing but the encrypted private record
    that the store returned, and only when no root key is cached and the
    coin type is in bounds; the event tells whether it succeeded.  This
    holds for [DeriveCoinTypeKey] and for [DeriveAccountKey]. *)
Theorem X9_decryptor_sees_only_the_stored_record scope account ns
  cryptoKeyPriv w ct ok :
  In (EvDecrypt ct ok)
     (events (LocalKeyMaker.DeriveCoinTypeKey scope ns cryptoKeyPriv w)) \/
  In (EvDecrypt ct ok)
     (events (LocalKeyMaker.DeriveAccountKey scope account ns cryptoKeyPriv w)) ->
  (Coin scope <= maxCoinType)%Z /\
  rootPrivKey (this w) = None /\
  (exists pub, fetchMasterHDKeys ns = (Some ct, pub, None)) /\
  (ok = true <-> exists plain, Decrypt cryptoKeyPriv ct = Ok plain).
Proof.
  intros H.
  assert (Hin : In (EvDecrypt ct ok)
            (events (LocalKeyMaker.DeriveCoinTypeKey scope ns cryptoKeyPriv w))).
  { destruct H as [H|H]; [exact H|].
    destruct (Z.gtb_spec account MaxAccountNum) as [Hhi|Hlo].
    - rewrite DeriveAccountKey_too_high in H by assumption. destruct H.
    - destruct (DeriveAccountKey_events scope account ns cryptoKeyPriv w Hlo)
        as (tail & Hev & Ht).
      rewrite Hev in H. apply in_app_or in H. destruct H as [H|H]; [exact H|].
      destruct Ht as [-> | [-> | ->]]; cbn in H; intuition discriminate. }
  destruct (DeriveCoinTypeKey_decrypt_inv _ _ _ _ _ _ Hin)
    as (Hlo & Hk & Hf & Hd).
  repeat (split; [assumption|]).
  destruct (Decrypt cryptoKeyPriv ct) as [plain|e]; subst ok.
  - split; eauto.
  - split; [discriminate|]. intros [plain [=]].
Qed.

(** X10: without a cached root key and with the coin type in bounds,
    [DeriveCoinTypeKey] looks the store up exactly once, and decrypts once
    if the lookup gave a private record and no error, and not at all
    otherwise. *)
Theorem X10_one_lookup_at_most_one_decrypt scope ns cryptoKeyPriv w :
  rootPrivKey (this w) = None ->
  (Coin scope <= maxCoinType)%Z ->
  let r := LocalKeyMaker.DeriveCoinTypeKey scope ns cryptoKeyPriv w in
  storeLookups (events r) = 1 /\
  decrypts (events r) =
    match fetchMasterHDKeys ns with
    | (Some _, _, None) => 1
    | _ => 0
    end.
Proof.
  intros Hnone Hc r. subst r.
  destruct (DeriveCoinTypeKey_run scope ns cryptoKeyPriv w) as
    [Hhi|k Hlo Hk|priv pub e Hlo Hk Hf|pub Hlo Hk Hf|enc pub e Hlo Hk Hf Hd
    |enc pub plain e Hlo Hk Hf Hd Hp|enc pub plain key Hlo Hk Hf Hd Hp w'];
    try lia; try congruence; cbn; rewrite Hf; try (split; reflexivity).
  - now destruct priv.
  - destruct (deriveCoinType_counts scope w') as [Hl Hd'].
    unfold storeLookups, decrypts, countEvents in *. cbn.
    rewrite Hl, Hd'. auto.
Qed.

(** X11: an error of the store lookup is returned as it is, also when the
    lookup handed a private record back with it; nothing is decrypted and
    the state is unchanged. *)
Theorem X11_store_error_is_returned scope ns cryptoKeyPriv w priv pub e :
  rootPrivKey (this w) = None ->
  (Coin scope <= maxCoinType)%Z ->
  fetchMasterHDKeys ns = (priv, pub, Some e) ->
  let r := LocalKeyMaker.DeriveCoinTypeKey scope ns cryptoKeyPriv w in
  outcome r = Returns (None, None, Some e) /\
  decrypts (events r) = 0 /\
  final r = w.
Proof.
  intros Hk Hc Hf r. subst r.
  rewrite DeriveCoinTypeKey_uncached by assumption.
  rewrite (loadRootPrivKey_fetch_error _ _ _ priv pub e) by assumption.
  cbn. auto.
Qed.

(** X12: with a cached root key [k] and the coin type in bounds, an error
    of either [Child] call is returned unchanged, while an error of
    [Neuter] is replaced by a fixed message; in each case no key is
    returned and the state is unchanged. *)
Theorem X12_derivation_errors scope ns cryptoKeyPriv w k :
  rootPrivKey (this w) = Some k ->
  (Coin scope <= maxCoinType)%Z ->
  let r := LocalKeyMaker.DeriveCoinTypeKey scope ns cryptoKeyPriv w in
  let purposeIndex := uint32_add (Purpose scope) HardenedKeyStart in
  let coinIndex := uint32_add (Coin scope) HardenedKeyStart in
  final r = w /\
  (forall e,
      Child k purposeIndex = Err e ->
      outcome r = Returns (None, None, Some (LibErr e))) /\
  (forall purpose e,
      Child k purposeIndex = Ok purpose ->
      Child purpose coinIndex = Err e ->
      outcome r = Returns (None, None, Some (LibErr e))) /\
  (forall purpose coinTypePrivKey e,
      Child k purposeIndex = Ok purpose ->
      Child purpose coinIndex = Ok coinTypePrivKey ->
      Neuter coinTypePrivKey = Err e ->
      outcome r =
        Returns (None, None,
                 Some (ErrorsNew "failed to convert cointype private key"))).
Proof.
  intros Hk Hc r purposeIndex coinIndex. subst r purposeIndex coinIndex.
  rewrite (DeriveCoinTypeKey_cached _ _ _ _ k) by assumption. cbn.
  rewrite (deriveCoinType_outcome _ _ k Hk). unfold spec_coin_type_from.
  split; [reflexivity|]. split; [|split].
  - intros e ->. reflexivity.
  - intros purpose e -> ->. reflexivity.
  - intros purpose coinTypePrivKey e -> -> ->. reflexivity.
Qed.

Lemma deriveCoinType_hdkeychain_only scope w :
  Forall (fun e => isNewMaster e = false /\ isZeroBytes e = false)
    (events (LocalKeyMaker.deriveCoinType scope w)).
Proof.
  unfold LocalKeyMaker.deriveCoinType. unfold_calls. unfold_go. cbn.
  destruct (rootPrivKey (this w)); cbn; [|constructor].
  destruct (Child _ _); cbn; [|repeat constructor].
  destruct (Child _ _); cbn; [|repeat constructor].
  destruct (Neuter _); cbn; repeat constructor.
Qed.

(** X13: the seed is used by [CreateMasterKey] alone, and the store and
    the decryptor by the derivations alone: [DeriveCoinTypeKey] and
    [DeriveAccountKey] never call [NewMaster], and [CreateMasterKey] never
    looks the store up, decrypts, wipes or allocates a buffer. *)
Theorem X13_who_calls_what scope account ns cryptoKeyPriv w :
  Forall (fun e => isNewMaster e = false)
    (events (LocalKeyMaker.DeriveCoinTypeKey scope ns cryptoKeyPriv w)) /\
  Forall (fun e => isNewMaster e = false)
    (events (LocalKeyMaker.DeriveAccountKey scope account ns cryptoKeyPriv w)) /\
  Forall (fun e => isStoreLookup e = false /\ isDecrypt e = false /\
                   isZeroBytes e = false)
    (events (LocalKeyMaker.CreateMasterKey w)) /\
  heap (final (LocalKeyMaker.CreateMasterKey w)) = heap w.
Proof.
  assert (Hd : forall w', Forall (fun e => isNewMaster e = false)
                 (events (LocalKeyMaker.deriveCoinType scope w'))).
  { intros w'. eapply Forall_impl; [apply deriveCoinType_hdkeychain_only|].
    now intros e [? _]. }
  assert (Hcoin : Forall (fun e => isNewMaster e = false)
            (events (LocalKeyMaker.DeriveCoinTypeKey scope ns cryptoKeyPriv w))).
  { destruct (DeriveCoinTypeKey_run scope ns cryptoKeyPriv w) as
      [Hhi|k Hlo Hk|priv pub e Hlo Hk Hf|pub Hlo Hk Hf|enc pub e Hlo Hk Hf Hd'
      |enc pub plain e Hlo Hk Hf Hd' Hp|enc pub plain key Hlo Hk Hf Hd' Hp w'];
      cbn;
      repeat first [apply List.Forall_nil | apply Hd
                   | apply List.Forall_cons; [reflexivity|]]. }
  split; [exact Hcoin|]. split; [|split].
  - destruct (Z.gtb_spec account MaxAccountNum) as [Hhi|Hlo].
    + rewrite DeriveAccountKey_too_high by assumption. constructor.
    + destruct (DeriveAccountKey_events scope account ns cryptoKeyPriv w Hlo)
        as (tail & -> & Ht).
      apply Forall_app. split; [exact Hcoin|].
      destruct Ht as [-> | [-> | ->]]; repeat constructor.
  - rewrite CreateMasterKey_run.
    destruct (NewMaster _ _) as [m|]; [destruct (Neuter m)|]; cbn;
      repeat constructor.
  - rewrite CreateMasterKey_run.
    destruct (NewMaster _ _) as [m|]; [destruct (Neuter m)|]; reflexivity.
Qed.

(** The calls of the derivation from a cached root. *)
Lemma deriveCoinType_first_event scope w k :
  rootPrivKey (this w) = Some k ->
  exists rest,
    events (LocalKeyMaker.deriveCoinType scope w) =
    EvChild (uint32_add (Purpose scope) HardenedKeyStart) :: rest.
Proof.
  intros Hk. unfold LocalKeyMaker.deriveCoinType. unfold_calls. unfold_go.
  cbn. rewrite Hk. cbn.
  destruct (Child k _); cbn; [|eauto].
  destruct (Child _ _); cbn; [|eauto].
  destruct (Neuter _); cbn; eauto.
Qed.

Lemma deriveCoinType_success_events scope w ck cp err :
  outcome (LocalKeyMaker.deriveCoinType scope w) = Returns (Some ck, cp, err) ->
  events (LocalKeyMaker.deriveCoinType scope w) =
  [EvChild (uint32_add (Purpose scope) HardenedKeyStart);
   EvChild (uint32_add (Coin scope) HardenedKeyStart); EvNeuter].
Proof.
  unfold LocalKeyMaker.deriveCoinType. unfold_calls. unfold_go. cbn.
  destruct (rootPrivKey (this w)); cbn; [|discriminate].
  destruct (Child _ _); cbn; [|discriminate].
  destruct (Child _ _); cbn; [|discriminate].
  destruct (Neuter _); cbn; [reflexivity|discriminate].
Qed.

(** X14: the bounds tests keep the hardened indices from wrapping.  When
    [maxCoinType + HardenedKeyStart] fits a uint32 and [MaxAccountNum] is
    not above [maxCoinType], a call that passes the tests and derives the
    coin-type key calls [Child] at the index [Coin + HardenedKeyStart], and
    [DeriveAccountKey] at [account + HardenedKeyStart], both of them at
    least [HardenedKeyStart] and below [2^32]. *)
Theorem X14_hardened_indices_do_not_wrap scope account ns cryptoKeyPriv w
  ck cp :
  (0 <= HardenedKeyStart)%Z ->
  (maxCoinType + HardenedKeyStart < 2 ^ 32)%Z ->
  (MaxAccountNum <= maxCoinType)%Z ->
  (0 <= Coin scope <= maxCoinType)%Z ->
  (0 <= account <= MaxAccountNum)%Z ->
  outcome (LocalKeyMaker.DeriveCoinTypeKey scope ns cryptoKeyPriv w) =
    Returns (Some ck, cp, None) ->
  In (EvChild (Coin scope + HardenedKeyStart))
     (events (LocalKeyMaker.DeriveCoinTypeKey scope ns cryptoKeyPriv w)) /\
  In (EvChild (account + HardenedKeyStart))
     (events (LocalKeyMaker.DeriveAccountKey scope account ns cryptoKeyPriv w)) /\
  (HardenedKeyStart <= Coin scope + HardenedKeyStart < 2 ^ 32)%Z /\
  (HardenedKeyStart <= account + HardenedKeyStart < 2 ^ 32)%Z.
Proof.
  intros HH Hfit Hle Hc Ha Hr.
  assert (Hci : uint32_add (Coin scope) HardenedKeyStart =
                (Coin scope + HardenedKeyStart)%Z)
    by (unfold uint32_add; apply Z.mod_small; lia).
  assert (Hai : uint32_add account HardenedKeyStart =
                (account + HardenedKeyStart)%Z)
    by (unfold uint32_add; apply Z.mod_small; lia).
  split; [|split; [|lia]].
  - rewrite <- Hci. revert Hr.
    destruct (DeriveCoinTypeKey_run scope ns cryptoKeyPriv w) as
      [Hhi|k Hlo Hk|priv pub e Hlo Hk Hf|pub Hlo Hk Hf|enc pub e Hlo Hk Hf Hd
      |enc pub plain e Hlo Hk Hf Hd Hp|enc pub plain key Hlo Hk Hf Hd Hp w'];
      cbn; try discriminate; intros Hr;
      rewrite (deriveCoinType_success_events _ _ _ _ _ Hr); cbn; tauto.
  - rewrite <- Hai.
    rewrite DeriveAccountKey_in_bounds by lia. cbn zeta. rewrite Hr.
    destruct (Child ck _) as [ak|e]; [destruct (Neuter ak)|]; cbn;
      apply in_or_app; right; left; reflexivity.
Qed.

(** X15: the purpose is not bounds-tested, and its index does wrap.  With
    [HardenedKeyStart = 2^31], a purpose from [2^31] up derives the purpose
    key at the index [Purpose - 2^31], which is below [2^31]: a child that
    is not hardened. *)
Theorem X15_high_purpose_wraps scope ns cryptoKeyPriv w k :
  HardenedKeyStart = (2 ^ 31)%Z ->
  (2 ^ 31 <= Purpose scope < 2 ^ 32)%Z ->
  (Coin scope <= maxCoinType)%Z ->
  rootPrivKey (this w) = Some k ->
  (exists rest,
      events (LocalKeyMaker.DeriveCoinTypeKey scope ns cryptoKeyPriv w) =
      EvDeriveCoinTypeKey scope :: EvChild (Purpose scope - 2 ^ 31) :: rest) /\
  (0 <= Purpose scope - 2 ^ 31 < HardenedKeyStart)%Z.
Proof.
  intros HH Hp Hc Hk. split; [|lia].
  assert (Hi : uint32_add (Purpose scope) HardenedKeyStart =
               (Purpose scope - 2 ^ 31)%Z).
  { rewrite HH. unfold uint32_add.
    replace (Purpose scope + 2 ^ 31)%Z
      with ((Purpose scope - 2 ^ 31) + 1 * 2 ^ 32)%Z by lia.
    rewrite Z.mod_add by lia. apply Z.mod_small. lia. }
  rewrite (DeriveCoinTypeKey_cached _ _ _ _ k) by assumption. cbn.
  destruct (deriveCoinType_first_event scope w k Hk) as [rest ->].
  exists rest. rewrite Hi. reflexivity.
Qed.

(** X16: after a [CreateMasterKey] that succeeded, the coin-type key comes
    from the seed, whatever root key was cached before: [DeriveCoinTypeKey]
    returns [NewMaster(seed, chainParams).Child(purpose + H).Child(coin + H)]
    and neither looks the store up nor decrypts. *)
Theorem X16_coin_type_key_from_seed scope ns cryptoKeyPriv w root rootPub err :
  outcome (LocalKeyMaker.CreateMasterKey w) = Returns (Some root, rootPub, err) ->
  (Coin scope <= maxCoinType)%Z ->
  let r := LocalKeyMaker.DeriveCoinTypeKey scope ns cryptoKeyPriv
             (final (LocalKeyMaker.CreateMasterKey w)) in
  let manual :=
    spec_manual_coin_type_key (seed (this w)) (chainParams (this w)) scope in
  storeLookups (events r) = 0 /\
  decrypts (events r) = 0 /\
  (forall priv pub err',
      outcome r = Returns (Some priv, pub, err') -> manual = Ok priv) /\
  (forall priv pub,
      manual = Ok priv -> Neuter priv = Ok pub ->
      outcome r = Returns (Some priv, Some pub, None)).
Proof.
  intros Hcreate Hc r manual. subst r manual. revert Hcreate.
  rewrite CreateMasterKey_run. unfold spec_manual_coin_type_key.
  destruct (NewMaster _ _) as [m|] eqn:Hm; [|discriminate].
  destruct (Neuter m) as [mp|] eqn:Hn; [|discriminate].
  cbn. intros [= -> _ _].
  rewrite (DeriveCoinTypeKey_cached _ _ _ _ root) by (assumption || reflexivity).
  cbn. rewrite (deriveCoinType_outcome _ _ root) by reflexivity.
  split; [apply deriveCoinType_counts|]. split; [apply deriveCoinType_counts|].
  destruct (spec_coin_type_from root scope) as [ck|e].
  - destruct (Neuter ck) as [cp|e] eqn:Hcp; split.
    + now intros priv pub err' [= <- _ _].
    + intros priv pub [= <-] Hp. congruence.
    + discriminate.
    + intros priv pub [= <-] Hp. congruence.
  - split; [discriminate|]. intros priv pub [=].
Qed.

(** X17: with a cached root key the store and the decryptor are not used:
    [DeriveCoinTypeKey] and [DeriveAccountKey] run the same way whatever
    store and decryptor they are given, and leave the state as it is. *)
Theorem X17_cached_ignores_store_and_decryptor scope account ns1 key1 ns2 key2
  w :
  is_Some (rootPrivKey (this w)) ->
  LocalKeyMaker.DeriveCoinTypeKey scope ns1 key1 w =
    LocalKeyMaker.DeriveCoinTypeKey scope ns2 key2 w /\
  LocalKeyMaker.DeriveAccountKey scope account ns1 key1 w =
    LocalKeyMaker.DeriveAccountKey scope account ns2 key2 w /\
  final (LocalKeyMaker.DeriveAccountKey scope account ns1 key1 w) = w.
Proof.
  intros [k Hk].
  assert (Hcoin : forall ns d, exists o es,
    LocalKeyMaker.DeriveCoinTypeKey scope ns d w =
      {| outcome := o; final := w; events := es |} /\
    forall ns' d', LocalKeyMaker.DeriveCoinTypeKey scope ns' d' w =
      {| outcome := o; final := w; events := es |}).
  { intros ns d.
    destruct (Z.gtb_spec (Coin scope) maxCoinType) as [Hhi|Hlo].
    - eexists _, _. split; [now apply DeriveCoinTypeKey_too_high|].
      intros. now apply DeriveCoinTypeKey_too_high.
    - eexists _, _. split; [now apply (DeriveCoinTypeKey_cached _ _ _ _ k)|].
      intros. now apply (DeriveCoinTypeKey_cached _ _ _ _ k). }
  destruct (Hcoin ns1 key1) as (o & es & H1 & Hall).
  assert (H12 : LocalKeyMaker.DeriveCoinTypeKey scope ns1 key1 w =
                LocalKeyMaker.DeriveCoinTypeKey scope ns2 key2 w)
    by now rewrite H1, (Hall ns2 key2).
  split; [exact H12|].
  destruct (Z.gtb_spec account MaxAccountNum) as [Hhi|Hlo].
  - rewrite !DeriveAccountKey_too_high by assumption. auto.
  - rewrite DeriveAccountKey_final by assumption.
    rewrite !DeriveAccountKey_in_bounds by assumption.
    rewrite H12. split; [reflexivity|]. now rewrite (Hall ns2 key2).
Qed.

(** X18: the account key is the child of the coin-type key.  For an account
    in bounds, once the inner [DeriveCoinTypeKey] has returned the key
    [ck], [DeriveAccountKey] returns [ck.Child(account + H)] and its
    neutering; an error of [Child] is returned unchanged and an error of
    [Neuter] is replaced by a fixed message; the state is the one the inner
    call left. *)
Theorem X18_account_key_is_child_of_coin_type_key scope account ns
  cryptoKeyPriv w ck cp err :
  (account <= MaxAccountNum)%Z ->
  outcome (LocalKeyMaker.DeriveCoinTypeKey scope ns cryptoKeyPriv w) =
    Returns (Some ck, cp, err) ->
  let r := LocalKeyMaker.DeriveAccountKey scope account ns cryptoKeyPriv w in
  let i := uint32_add account HardenedKeyStart in
  final r = final (LocalKeyMaker.DeriveCoinTypeKey scope ns cryptoKeyPriv w) /\
  (forall ak ap,
      Child ck i = Ok ak -> Neuter ak = Ok ap ->
      outcome r = Returns (Some ak, Some ap, None)) /\
  (forall e,
      Child ck i = Err e ->
      outcome r = Returns (None, None, Some (LibErr e))) /\
  (forall ak e,
      Child ck i = Ok ak -> Neuter ak = Err e ->
      outcome r =
        Returns (None, None,
                 Some (ErrorsNew "failed to convert private key for account 0"))).
Proof.
  intros Ha Hr r i. subst r i.
  split; [now apply DeriveAccountKey_final|].
  rewrite DeriveAccountKey_in_bounds by assumption. cbn zeta. rewrite Hr.
  split; [|split].
  - intros ak ap -> ->. reflexivity.
  - intros e ->. reflexivity.
  - intros ak e -> ->. reflexivity.
Qed.

End LocalKeyMakerMore.

(** ** The remote key maker *)

(** C9 (as the code has it): [RemoteKeyMaker] implements the three
    operations of the [KeyMaker] interface, and each of them is a stub: for
    every input, in bounds or not, the call panics with ["implement me"],
    checks no bound, calls no collaborator and returns no error value. *)
Theorem C9_remote_operations_panic `{C : Collaborators}
  (w : World RemoteKeyMaker) (scope : KeyScope) (account : Z) (ns : Bucket)
  (cryptoKeyPriv : EncryptorDecryptor) :
  let stub := {| outcome := Panics (PanicString "implement me");
                 final := w; events := [] |} in
  CreateMasterKey w = stub /\
  DeriveCoinTypeKey scope ns cryptoKeyPriv w = stub /\
  DeriveAccountKey scope account ns cryptoKeyPriv w = stub.
Proof. cbn. repeat split. Qed.

(** ** Runs on explicit inputs *)

#[local] Existing Instance TestDouble.collaborators.

(** The first [DeriveCoinTypeKey] on a fresh maker loads the stored root
    key, wipes the plaintext and derives [m/44'/0']. *)
Example DeriveCoinTypeKey_first_call :
  let r := LocalKeyMaker.DeriveCoinTypeKey TestDouble.bip44
             TestDouble.privateStore TestDouble.unlocked TestDouble.fresh in
  events r =
    [EvDeriveCoinTypeKey TestDouble.bip44; EvFetchMasterHDKeys;
     EvDecrypt TestDouble.storedKey true; EvNewKeyFromString; EvZeroBytes 0;
     EvChild (2 ^ 31 + 44); EvChild (2 ^ 31); EvNeuter] /\
  rootPrivKey (this (final r)) = Some TestDouble.rootKey /\
  heap (final r) = [replicate 16 x00].
Proof. repeat split. Qed.

(** The purpose index wraps around as a uint32 does. *)
Example purpose_index_wraps :
  uint32_add (2 ^ 31 + 5) (2 ^ 31) = 5%Z /\
  events (LocalKeyMaker.DeriveCoinTypeKey
            {| Purpose := 2 ^ 31 + 5; Coin := 0 |}
            TestDouble.privateStore TestDouble.unlocked TestDouble.keyed) =
    [EvDeriveCoinTypeKey {| Purpose := 2 ^ 31 + 5; Coin := 0 |};
     EvChild 5; EvChild (2 ^ 31); EvNeuter].
Proof. repeat split. Qed.

(** C9 fails on the code: with coin type [2^31], above [maxCoinType], the
    remote [DeriveCoinTypeKey] does not return [ErrCoinTypeTooHigh]; with
    account [2^31 - 1], above [MaxAccountNum], the remote [DeriveAccountKey]
    does not return [ErrAccountNumTooHigh]; both panic, and no operation
    returns at all. *)
Lemma C9_counterexample :
  (maxCoinType < Coin TestDouble.coinTooHigh)%Z /\
  outcome (RemoteKeyMaker.DeriveCoinTypeKey TestDouble.coinTooHigh
             TestDouble.privateStore TestDouble.unlocked TestDouble.remote)
    <> Returns (None, None,
                Some (managerError ErrCoinTypeTooHigh errCoinTypeTooHigh None)) /\
  (MaxAccountNum < 2 ^ 31 - 1)%Z /\
  outcome (RemoteKeyMaker.DeriveAccountKey TestDouble.bip44 (2 ^ 31 - 1)
             TestDouble.privateStore TestDouble.unlocked TestDouble.remote)
    <> Returns (None, None,
                Some (managerError ErrAccountNumTooHigh errAcctTooHigh None)) /\
  (forall res,
      outcome (RemoteKeyMaker.CreateMasterKey TestDouble.remote)
        <> Returns res) /\
  outcome (RemoteKeyMaker.DeriveCoinTypeKey TestDouble.coinTooHigh
             TestDouble.privateStore TestDouble.unlocked TestDouble.remote)
    = Panics (PanicString "implement me").
Proof.
  split; [reflexivity|]. split; [discriminate|].
  split; [reflexivity|]. split; [discriminate|].
  split; [discriminate|]. reflexivity.
Qed.

(** C1 fails on the code: on a maker without a root key and a store without
    a private record, the inner [DeriveCoinTypeKey] returns the
    [ErrWatchingOnly] error; [DeriveAccountKey], with account 0, does not
    return it but goes on to call [Child] on the nil key and panics. *)
Theorem C1_DeriveAccountKey_drops_inner_error :
  let inner := LocalKeyMaker.DeriveCoinTypeKey TestDouble.bip44
                 TestDouble.watchingOnlyStore TestDouble.unlocked
                 TestDouble.fresh in
  let r := LocalKeyMaker.DeriveAccountKey TestDouble.bip44 0
             TestDouble.watchingOnlyStore TestDouble.unlocked
             TestDouble.fresh in
  (0 <= MaxAccountNum)%Z /\
  outcome inner =
    Returns (None, None, Some (managerError ErrWatchingOnly "" None)) /\
  outcome r = Panics NilDereference /\
  outcome r <> outcome inner.
Proof.
  assert (Hinner :
    outcome (LocalKeyMaker.DeriveCoinTypeKey TestDouble.bip44
               TestDouble.watchingOnlyStore TestDouble.unlocked
               TestDouble.fresh) =
    Returns (None, None, Some (managerError ErrWatchingOnly "" None)))
    by reflexivity.
  assert (Hb : (0 <= MaxAccountNum)%Z) by (vm_compute; discriminate).
  pose proof (DeriveAccountKey_inner_error _ _ _ _ _ _ _ _ Hb Hinner) as Hr.
  cbv zeta. rewrite Hr, Hinner. repeat split; try assumption. discriminate.
Qed.

(** C2 at coin type [2^31] on a fresh maker and a store with a private
    record. *)
Lemma C2_coin_type_too_high_witness :
  (maxCoinType < Coin TestDouble.coinTooHigh)%Z /\
  let r := LocalKeyMaker.DeriveCoinTypeKey TestDouble.coinTooHigh
             TestDouble.privateStore TestDouble.unlocked TestDouble.fresh in
  outcome r =
    Returns (None, None,
             Some (ManagerError ErrCoinTypeTooHigh
                     "coin type may not exceed 2^31 - 1" None)) /\
  storeLookups (events r) = 0 /\
  decrypts (events r) = 0 /\
  final r = TestDouble.fresh.
Proof.
  assert (H : (maxCoinType < Coin TestDouble.coinTooHigh)%Z) by reflexivity.
  split; [exact H|].
  destruct (C2_coin_type_too_high TestDouble.coinTooHigh
              TestDouble.privateStore TestDouble.unlocked TestDouble.fresh H)
    as (Ho & Hl & Hd & _ & Hf).
  repeat split; assumption.
Defined.

(** C3 at account [2^31 - 1]. *)
Lemma C3_account_too_high_witness :
  (MaxAccountNum < 2 ^ 31 - 1)%Z /\
  let r := LocalKeyMaker.DeriveAccountKey TestDouble.bip44 (2 ^ 31 - 1)
             TestDouble.privateStore TestDouble.unlocked TestDouble.fresh in
  outcome r =
    Returns (None, None,
             Some (ManagerError ErrAccountNumTooHigh
                     "account number may not exceed 2^31 - 2" None)) /\
  events r = [] /\
  final r = TestDouble.fresh.
Proof.
  assert (H : (MaxAccountNum < 2 ^ 31 - 1)%Z) by reflexivity.
  split; [exact H|].
  exact (C3_account_too_high TestDouble.bip44 (2 ^ 31 - 1)
           TestDouble.privateStore TestDouble.unlocked TestDouble.fresh H).
Defined.

(** C4 on a fresh maker and a store that holds the public record only. *)
Lemma C4_watching_only_witness :
  rootPrivKey (this TestDouble.fresh) = None /\
  (Coin TestDouble.bip44 <= maxCoinType)%Z /\
  fetchMasterHDKeys TestDouble.watchingOnlyStore =
    (None, Some TestDouble.storedKey, None) /\
  let r := LocalKeyMaker.DeriveCoinTypeKey TestDouble.bip44
             TestDouble.watchingOnlyStore TestDouble.unlocked
             TestDouble.fresh in
  outcome r = Returns (None, None, Some (ManagerError ErrWatchingOnly "" None)) /\
  decrypts (events r) = 0.
Proof.
  assert (Hk : rootPrivKey (this TestDouble.fresh) = None) by reflexivity.
  assert (Hc : (Coin TestDouble.bip44 <= maxCoinType)%Z)
    by (vm_compute; discriminate).
  assert (Hf : fetchMasterHDKeys TestDouble.watchingOnlyStore =
               (None, Some TestDouble.storedKey, None)) by reflexivity.
  repeat (split; [assumption|]).
  destruct (C4_watching_only TestDouble.bip44 TestDouble.watchingOnlyStore
              TestDouble.unlocked TestDouble.fresh _ Hk Hc Hf)
    as (Ho & Hd & _).
  split; assumption.
Defined.

(** C5 on a fresh maker, a store with a private record and the decryptor
    that always fails; the retry uses the decryptor that works. *)
Lemma C5_locked_witness :
  let r := LocalKeyMaker.DeriveCoinTypeKey TestDouble.bip44
             TestDouble.privateStore TestDouble.locked TestDouble.fresh in
  rootPrivKey (this TestDouble.fresh) = None /\
  fetchMasterHDKeys TestDouble.privateStore =
    (Some TestDouble.storedKey, None, None) /\
  In (EvDecrypt TestDouble.storedKey false) (events r) /\
  outcome r =
    Returns (None, None,
             Some (ManagerError ErrLocked
                     "failed to decrypt master root serialized private key"
                     (Some (LibErr "crypto key is locked")))) /\
  rootPrivKey (this (final r)) = None /\
  exists coinPriv coinPub,
    outcome (LocalKeyMaker.DeriveCoinTypeKey TestDouble.bip44
               TestDouble.privateStore TestDouble.unlocked (final r)) =
    Returns (Some coinPriv, Some coinPub, None).
Proof.
  intros r.
  assert (Hk : rootPrivKey (this TestDouble.fresh) = None) by reflexivity.
  assert (Hf : fetchMasterHDKeys TestDouble.privateStore =
               (Some TestDouble.storedKey, None, None)) by reflexivity.
  assert (Hin : In (EvDecrypt TestDouble.storedKey false) (events r))
    by (right; right; left; reflexivity).
  repeat (split; [assumption|]).
  destruct (C5_locked TestDouble.bip44 TestDouble.privateStore
              TestDouble.locked TestDouble.fresh TestDouble.storedKey None
              Hk Hf Hin) as ((e & He & Ho) & Hnone & Hretry).
  injection He as <-.
  split; [exact Ho|]. split; [exact Hnone|].
  set (coinPriv :=
         ({| TestDouble.isPrivate := true;
            TestDouble.path := [2 ^ 31 + 44; 2 ^ 31]%Z;
            TestDouble.material := TestDouble.storedKey |}
          : @ExtendedKey TestDouble.collaborators)).
  exists coinPriv, (match Neuter coinPriv with Ok p => p | Err _ => coinPriv end).
  apply (Hretry TestDouble.bip44 TestDouble.unlocked TestDouble.storedKey
           TestDouble.rootKey coinPriv); try reflexivity.
  vm_compute; discriminate.
Defined.

(** C8 on a fresh maker and the decryptor that works: once on a store
    whose record does not parse (the [ErrKeyChain] exit), once on a store
    whose record parses. *)
Lemma C8_plaintext_erased_witness :
  let bad := LocalKeyMaker.DeriveCoinTypeKey TestDouble.bip44
               TestDouble.corruptStore TestDouble.unlocked TestDouble.fresh in
  let good := LocalKeyMaker.DeriveCoinTypeKey TestDouble.bip44
                TestDouble.privateStore TestDouble.unlocked TestDouble.fresh in
  In (EvDecrypt (list_byte_of_string "garbage") true) (events bad) /\
  In (EvDecrypt TestDouble.storedKey true) (events good) /\
  erased (heap (final bad)) 0 /\
  erased (heap (final good)) 0 /\
  outcome bad =
    Returns (None, None,
             Some (ManagerError ErrKeyChain
                     "failed to create master extended private key"
                     (Some (LibErr
                              "the provided serialized extended key is invalid")))).
Proof.
  intros bad good.
  assert (Hb : In (EvDecrypt (list_byte_of_string "garbage") true) (events bad))
    by (right; right; left; reflexivity).
  assert (Hg : In (EvDecrypt TestDouble.storedKey true) (events good))
    by (right; right; left; reflexivity).
  repeat (split; [assumption|]).
  destruct (C8_plaintext_erased TestDouble.bip44 TestDouble.corruptStore
              TestDouble.unlocked TestDouble.fresh _ Hb)
    as (plain & Hp & _ & Hz & _ & Herr & _).
  destruct (C8_plaintext_erased TestDouble.bip44 TestDouble.privateStore
              TestDouble.unlocked TestDouble.fresh _ Hg)
    as (plain' & _ & _ & Hz' & _).
  injection Hp as <-.
  split; [exact Hz|]. split; [exact Hz'|].
  apply Herr. reflexivity.
Defined.

(** C10 on a maker made from a root key: it has no seed, so
    [CreateMasterKey] fails, and the root key still derives. *)
Lemma C10_CreateMasterKey_error_keeps_root_witness :
  outcome (LocalKeyMaker.CreateMasterKey TestDouble.keyed) =
    Returns (None, None,
             Some (ErrorsNew "failed to derive master extended key")) /\
  let w' := final (LocalKeyMaker.CreateMasterKey TestDouble.keyed) in
  rootPrivKey (this w') = Some TestDouble.rootKey /\
  exists coinPriv coinPub,
    outcome (LocalKeyMaker.DeriveCoinTypeKey TestDouble.bip44
               TestDouble.watchingOnlyStore TestDouble.locked w') =
    Returns (Some coinPriv, Some coinPub, None).
Proof.
  assert (H : outcome (LocalKeyMaker.CreateMasterKey TestDouble.keyed) =
              Returns (None, None,
                       Some (ErrorsNew "failed to derive master extended key")))
    by reflexivity.
  split; [exact H|].
  destruct (C10_CreateMasterKey_error_keeps_root TestDouble.keyed _ _ _ H)
    as (Hroot & _ & Hderive).
  split; [exact Hroot|].
  set (coinPriv :=
         ({| TestDouble.isPrivate := true;
            TestDouble.path := [2 ^ 31 + 44; 2 ^ 31]%Z;
            TestDouble.material := TestDouble.storedKey |}
          : @ExtendedKey TestDouble.collaborators)).
  exists coinPriv, (match Neuter coinPriv with Ok p => p | Err _ => coinPriv end).
  apply (Hderive TestDouble.rootKey TestDouble.bip44
           TestDouble.watchingOnlyStore TestDouble.locked coinPriv);
    try reflexivity.
  vm_compute; discriminate.
Defined.

(** C6 on the seed ["0123456789abcdef"], purpose 44, coin 0, account 0. *)
Lemma C6_account_key_is_manual_composition_witness :
  let w0 := {| this := LocalKeyMaker.NewLocalKeyMakerFromSeed
                         TestDouble.seed16 None;
               heap := [] |} in
  let r := LocalKeyMaker.DeriveAccountKey TestDouble.bip44 0
             TestDouble.watchingOnlyStore TestDouble.locked
             (final (LocalKeyMaker.CreateMasterKey w0)) in
  (exists root rootPub,
      outcome (LocalKeyMaker.CreateMasterKey w0) =
        Returns (Some root, Some rootPub, None)) /\
  (Coin TestDouble.bip44 <= maxCoinType)%Z /\
  (0 <= MaxAccountNum)%Z /\
  exists priv pub,
    spec_manual_account_key TestDouble.seed16 None TestDouble.bip44 0 = Ok priv /\
    outcome r = Returns (Some priv, Some pub, None).
Proof.
  intros w0 r.
  set (root := ({| TestDouble.isPrivate := true; TestDouble.path := [];
                  TestDouble.material := TestDouble.seed16 |}
          : @ExtendedKey TestDouble.collaborators)).
  set (rootPub := ({| TestDouble.isPrivate := false; TestDouble.path := [];
                     TestDouble.material := TestDouble.seed16 |}
          : @ExtendedKey TestDouble.collaborators)).
  assert (Hcreate : outcome (LocalKeyMaker.CreateMasterKey w0) =
                    Returns (Some root, Some rootPub, None)) by reflexivity.
  assert (Hc : (Coin TestDouble.bip44 <= maxCoinType)%Z)
    by (vm_compute; discriminate).
  assert (Ha : (0 <= MaxAccountNum)%Z) by (vm_compute; discriminate).
  split; [eauto|]. split; [exact Hc|]. split; [exact Ha|].
  destruct (C6_account_key_is_manual_composition TestDouble.seed16 None []
              TestDouble.bip44 0 TestDouble.watchingOnlyStore
              TestDouble.locked root rootPub Hcreate Hc Ha)
    as (Hany & Hsome).
  set (coinPriv :=
         ({| TestDouble.isPrivate := true;
            TestDouble.path := [2 ^ 31 + 44; 2 ^ 31]%Z;
            TestDouble.material := TestDouble.seed16 |}
          : @ExtendedKey TestDouble.collaborators)).
  set (priv :=
         ({| TestDouble.isPrivate := true;
            TestDouble.path := [2 ^ 31 + 44; 2 ^ 31; 2 ^ 31]%Z;
            TestDouble.material := TestDouble.seed16 |}
          : @ExtendedKey TestDouble.collaborators)).
  assert (Hr : outcome r =
               Returns (Some priv,
                        Some (match Neuter priv with
                              | Ok p => p
                              | Err _ => priv
                              end), None)).
  { apply (Hsome coinPriv
             (match Neuter coinPriv with Ok p => p | Err _ => coinPriv end));
      reflexivity. }
  exists priv, (match Neuter priv with Ok p => p | Err _ => priv end).
  split; [|exact Hr]. exact (Hany _ _ _ Hr).
Defined.

(** C7 on a maker made from a root key (the cache survives a failing
    [CreateMasterKey], a [DeriveAccountKey] and an out-of-bounds
    [DeriveCoinTypeKey]) and on a fresh maker called twice. *)
Lemma C7_cache_is_permanent_witness :
  let ops := [OpCreateMasterKey;
              OpDeriveAccountKey TestDouble.bip44 0
                TestDouble.watchingOnlyStore TestDouble.locked;
              OpDeriveCoinTypeKey TestDouble.coinTooHigh
                TestDouble.privateStore TestDouble.unlocked] in
  let r := LocalKeyMaker.DeriveCoinTypeKey TestDouble.bip44
             TestDouble.privateStore TestDouble.unlocked TestDouble.keyed in
  let r1 := LocalKeyMaker.DeriveCoinTypeKey TestDouble.bip44
              TestDouble.privateStore TestDouble.unlocked TestDouble.fresh in
  let r2 := LocalKeyMaker.DeriveCoinTypeKey TestDouble.bip44
              TestDouble.privateStore TestDouble.unlocked (final r1) in
  is_Some (rootPrivKey (this TestDouble.keyed)) /\
  (Coin TestDouble.bip44 <= maxCoinType)%Z /\
  rootPrivKey (this TestDouble.fresh) = None /\
  is_Some (rootPrivKey (this (final r1))) /\
  is_Some (rootPrivKey (this (runOps ops TestDouble.keyed))) /\
  storeLookups (events r) = 0 /\
  decrypts (events r) = 0 /\
  storeLookups (events r1 ++ events r2) = 1 /\
  decrypts (events r1 ++ events r2) = 1.
Proof.
  intros ops r r1 r2.
  assert (Hs : is_Some (rootPrivKey (this TestDouble.keyed)))
    by (exists TestDouble.rootKey; reflexivity).
  assert (Hc : (Coin TestDouble.bip44 <= maxCoinType)%Z)
    by (vm_compute; discriminate).
  assert (Hn : rootPrivKey (this TestDouble.fresh) = None) by reflexivity.
  assert (Hs1 : is_Some (rootPrivKey (this (final r1))))
    by (exists TestDouble.rootKey; reflexivity).
  do 4 (split; [assumption|]).
  destruct (C7_cache_is_permanent TestDouble.keyed) as (Hops & Hcached & _).
  destruct (C7_cache_is_permanent TestDouble.fresh) as (_ & _ & Htwice).
  split; [exact (Hops ops Hs)|].
  destruct (Hcached TestDouble.bip44 TestDouble.privateStore
              TestDouble.unlocked Hs Hc) as (Hl & Hd).
  split; [exact Hl|]. split; [exact Hd|].
  destruct (Htwice TestDouble.bip44 TestDouble.privateStore
              TestDouble.unlocked TestDouble.bip44 TestDouble.privateStore
              TestDouble.unlocked Hn Hs1) as (Hl2 & Hd2 & _).
  split; [exact Hl2|exact Hd2].
Defined.

(** ** Further runs on explicit inputs *)

(** X2 on the first [DeriveCoinTypeKey] of a fresh maker. *)
Lemma X2_returned_pair_is_consistent_witness :
  let r := runOp (OpDeriveCoinTypeKey TestDouble.bip44 TestDouble.privateStore
                    TestDouble.unlocked) TestDouble.fresh in
  exists priv pub,
    outcome r = Returns (Some priv, Some pub, None) /\ Neuter priv = Ok pub.
Proof.
  intros r.
  set (priv := ({| TestDouble.isPrivate := true;
                   TestDouble.path := [2 ^ 31 + 44; 2 ^ 31]%Z;
                   TestDouble.material := TestDouble.storedKey |}
                : @ExtendedKey TestDouble.collaborators)).
  set (pub := ({| TestDouble.isPrivate := false;
                  TestDouble.path := [2 ^ 31 + 44; 2 ^ 31]%Z;
                  TestDouble.material := TestDouble.storedKey |}
               : @ExtendedKey TestDouble.collaborators)).
  assert (H : outcome r = Returns (Some priv, Some pub, None)) by reflexivity.
  destruct (X2_returned_pair_is_consistent _ _ _ _ _ H) as (p & Hp & _ & Hn).
  injection Hp as <-. eauto.
Defined.

(** X3 on a [DeriveAccountKey] whose account is out of bounds. *)
Lemma X3_result_is_well_formed_witness :
  let r := runOp (OpDeriveAccountKey TestDouble.bip44 (2 ^ 31 - 1)
                    TestDouble.privateStore TestDouble.unlocked)
             TestDouble.fresh in
  exists res, outcome r = Returns res /\ wellFormed res.
Proof.
  intros r.
  assert (H : outcome r =
              Returns (None, None,
                       Some (managerError ErrAccountNumTooHigh
                               errAcctTooHigh None))) by reflexivity.
  eexists. split; [exact H|].
  exact (X3_result_is_well_formed _ _ _ H).
Defined.


(** X5 on a fresh maker and the stored root key. *)
Lemma X5_lazy_load_equals_cached_witness :
  (Coin TestDouble.bip44 <= maxCoinType)%Z /\
  rootPrivKey (this TestDouble.fresh) = None /\
  fetchMasterHDKeys TestDouble.privateStore =
    (Some TestDouble.storedKey, None, None) /\
  Decrypt TestDouble.unlocked TestDouble.storedKey = Ok TestDouble.storedKey /\
  NewKeyFromString (string_of_list_byte TestDouble.storedKey) =
    Ok TestDouble.rootKey /\
  outcome (LocalKeyMaker.DeriveCoinTypeKey TestDouble.bip44
             TestDouble.privateStore TestDouble.unlocked TestDouble.fresh) =
  outcome (LocalKeyMaker.DeriveCoinTypeKey TestDouble.bip44
             TestDouble.watchingOnlyStore TestDouble.locked TestDouble.keyed).
Proof.
  assert (Hc : (Coin TestDouble.bip44 <= maxCoinType)%Z)
    by (vm_compute; discriminate).
  assert (Hk : rootPrivKey (this TestDouble.fresh) = None) by reflexivity.
  assert (Hf : fetchMasterHDKeys TestDouble.privateStore =
               (Some TestDouble.storedKey, None, None)) by reflexivity.
  assert (Hd : Decrypt TestDouble.unlocked TestDouble.storedKey =
               Ok TestDouble.storedKey) by reflexivity.
  assert (Hp : NewKeyFromString (string_of_list_byte TestDouble.storedKey) =
               Ok TestDouble.rootKey) by reflexivity.
  do 5 (split; [assumption|]).
  exact (proj1 (X5_lazy_load_equals_cached TestDouble.bip44
                  TestDouble.privateStore TestDouble.unlocked TestDouble.fresh
                  _ _ _ _ TestDouble.watchingOnlyStore TestDouble.locked []
                  Hc Hk Hf Hd Hp)).
Defined.

(** X6 on a fresh maker: the second call is given a store without a
    private record and a decryptor that fails. *)
Lemma X6_second_call_same_result_witness :
  let r1 := LocalKeyMaker.DeriveCoinTypeKey TestDouble.bip44
              TestDouble.privateStore TestDouble.unlocked TestDouble.fresh in
  let r2 := LocalKeyMaker.DeriveCoinTypeKey TestDouble.bip44
              TestDouble.watchingOnlyStore TestDouble.locked (final r1) in
  is_Some (rootPrivKey (this (final r1))) /\
  outcome r2 = outcome r1 /\ final r2 = final r1.
Proof.
  intros r1 r2.
  assert (Hs : is_Some (rootPrivKey (this (final r1))))
    by (exists TestDouble.rootKey; reflexivity).
  split; [exact Hs|].
  exact (X6_second_call_same_result TestDouble.bip44 TestDouble.privateStore
           TestDouble.unlocked TestDouble.watchingOnlyStore TestDouble.locked
           TestDouble.fresh Hs).
Defined.

(** X9 on the [Decrypt] event of a [DeriveAccountKey] on a fresh maker. *)
Lemma X9_decryptor_sees_only_the_stored_record_witness :
  In (EvDecrypt TestDouble.storedKey true)
     (events (LocalKeyMaker.DeriveAccountKey TestDouble.bip44 0
                TestDouble.privateStore TestDouble.unlocked TestDouble.fresh)) /\
  rootPrivKey (this TestDouble.fresh) = None /\
  (exists pub,
      fetchMasterHDKeys TestDouble.privateStore =
      (Some TestDouble.storedKey, pub, None)) /\
  exists plain, Decrypt TestDouble.unlocked TestDouble.storedKey = Ok plain.
Proof.
  assert (Hin : In (EvDecrypt TestDouble.storedKey true)
     (events (LocalKeyMaker.DeriveAccountKey TestDouble.bip44 0
                TestDouble.privateStore TestDouble.unlocked TestDouble.fresh)))
    by (right; right; left; reflexivity).
  split; [exact Hin|].
  destruct (X9_decryptor_sees_only_the_stored_record TestDouble.bip44 0
              TestDouble.privateStore TestDouble.unlocked TestDouble.fresh
              TestDouble.storedKey true (or_intror Hin))
    as (_ & Hk & Hf & Hd).
  split; [exact Hk|]. split; [exact Hf|]. now apply Hd.
Defined.

(** X10 on a fresh maker, with and without a private record in the
    store. *)
Lemma X10_one_lookup_at_most_one_decrypt_witness :
  let r := LocalKeyMaker.DeriveCoinTypeKey TestDouble.bip44
             TestDouble.privateStore TestDouble.locked TestDouble.fresh in
  let r' := LocalKeyMaker.DeriveCoinTypeKey TestDouble.bip44
              TestDouble.watchingOnlyStore TestDouble.unlocked
              TestDouble.fresh in
  rootPrivKey (this TestDouble.fresh) = None /\
  (Coin TestDouble.bip44 <= maxCoinType)%Z /\
  (storeLookups (events r) = 1 /\ decrypts (events r) = 1) /\
  (storeLookups (events r') = 1 /\ decrypts (events r') = 0).
Proof.
  intros r r'.
  assert (Hk : rootPrivKey (this TestDouble.fresh) = None) by reflexivity.
  assert (Hc : (Coin TestDouble.bip44 <= maxCoinType)%Z)
    by (vm_compute; discriminate).
  split; [exact Hk|]. split; [exact Hc|]. split.
  - exact (X10_one_lookup_at_most_one_decrypt TestDouble.bip44
             TestDouble.privateStore TestDouble.locked TestDouble.fresh Hk Hc).
  - exact (X10_one_lookup_at_most_one_decrypt TestDouble.bip44
             TestDouble.watchingOnlyStore TestDouble.unlocked TestDouble.fresh
             Hk Hc).
Defined.

(** X11 on a store whose lookup fails while handing a record back. *)
Lemma X11_store_error_is_returned_witness :
  let r := LocalKeyMaker.DeriveCoinTypeKey BrokenStore.bip44
             BrokenStore.privateStore BrokenStore.unlocked BrokenStore.fresh in
  rootPrivKey (this BrokenStore.fresh) = None /\
  (Coin BrokenStore.bip44 <= @maxCoinType BrokenStore.collaborators)%Z /\
  fetchMasterHDKeys BrokenStore.privateStore =
    (Some TestDouble.storedKey, None, Some (LibErr "bucket is closed")) /\
  outcome r = Returns (None, None, Some (LibErr "bucket is closed")) /\
  decrypts (events r) = 0 /\
  final r = BrokenStore.fresh.
Proof.
  intros r.
  assert (Hk : rootPrivKey (this BrokenStore.fresh) = None) by reflexivity.
  assert (Hc : (Coin BrokenStore.bip44 <= @maxCoinType BrokenStore.collaborators)%Z)
    by (vm_compute; discriminate).
  assert (Hf : fetchMasterHDKeys BrokenStore.privateStore =
               (Some TestDouble.storedKey, None,
                Some (LibErr "bucket is closed"))) by reflexivity.
  do 3 (split; [assumption|]).
  exact (X11_store_error_is_returned BrokenStore.bip44
           BrokenStore.privateStore BrokenStore.unlocked BrokenStore.fresh
           _ _ _ Hk Hc Hf).
Defined.

(** X12 on a maker made from a public root key (no hardened purpose
    child; with a purpose that wraps, no hardened coin child) and on one
    whose coin-type key cannot be neutered. *)
Lemma X12_derivation_errors_witness :
  let noPurpose := LocalKeyMaker.DeriveCoinTypeKey StrictDouble.bip44
                     StrictDouble.emptyStore StrictDouble.locked
                     StrictDouble.publicKeyed in
  let noCoin := LocalKeyMaker.DeriveCoinTypeKey StrictDouble.highPurpose
                  StrictDouble.emptyStore StrictDouble.locked
                  StrictDouble.publicKeyed in
  let noNeuter := LocalKeyMaker.DeriveCoinTypeKey StrictDouble.coin13
                    StrictDouble.emptyStore StrictDouble.locked
                    StrictDouble.keyed in
  rootPrivKey (this StrictDouble.publicKeyed) =
    Some StrictDouble.publicRootKey /\
  rootPrivKey (this StrictDouble.keyed) = Some StrictDouble.rootKey /\
  (Coin StrictDouble.coin13 <= @maxCoinType StrictDouble.collaborators)%Z /\
  outcome noPurpose =
    Returns (None, None,
             Some (LibErr "cannot derive a hardened key from a public key")) /\
  outcome noCoin =
    Returns (None, None,
             Some (LibErr "cannot derive a hardened key from a public key")) /\
  outcome noNeuter =
    Returns (None, None,
             Some (ErrorsNew "failed to convert cointype private key")).
Proof.
  intros noPurpose noCoin noNeuter.
  assert (Hp : rootPrivKey (this StrictDouble.publicKeyed) =
               Some StrictDouble.publicRootKey) by reflexivity.
  assert (Hk : rootPrivKey (this StrictDouble.keyed) =
               Some StrictDouble.rootKey) by reflexivity.
  assert (H0 : (0 <= @maxCoinType StrictDouble.collaborators)%Z)
    by (vm_compute; discriminate).
  assert (H13 : (Coin StrictDouble.coin13 <=
                 @maxCoinType StrictDouble.collaborators)%Z)
    by (vm_compute; discriminate).
  do 3 (split; [assumption|]).
  destruct (X12_derivation_errors StrictDouble.bip44 StrictDouble.emptyStore
              StrictDouble.locked StrictDouble.publicKeyed _ Hp H0)
    as (_ & Ha & _).
  destruct (X12_derivation_errors StrictDouble.highPurpose
              StrictDouble.emptyStore StrictDouble.locked
              StrictDouble.publicKeyed _ Hp H0) as (_ & _ & Hb & _).
  destruct (X12_derivation_errors StrictDouble.coin13 StrictDouble.emptyStore
              StrictDouble.locked StrictDouble.keyed _ Hk H13)
    as (_ & _ & _ & Hc).
  split; [|split].
  - apply Ha. reflexivity.
  - eapply Hb; reflexivity.
  - eapply Hc; reflexivity.
Defined.

(** X14 with the constants [2^31], [2^31 - 1] and [2^31 - 2], on coin 0
    and account 0. *)
Lemma X14_hardened_indices_do_not_wrap_witness :
  (0 <= @HardenedKeyStart TestDouble.collaborators)%Z /\
  (@maxCoinType TestDouble.collaborators
   + @HardenedKeyStart TestDouble.collaborators < 2 ^ 32)%Z /\
  (@MaxAccountNum TestDouble.collaborators
   <= @maxCoinType TestDouble.collaborators)%Z /\
  (exists ck cp,
      outcome (LocalKeyMaker.DeriveCoinTypeKey TestDouble.bip44
                 TestDouble.privateStore TestDouble.unlocked TestDouble.keyed) =
      Returns (Some ck, cp, None)) /\
  In (EvChild (2 ^ 31))
     (events (LocalKeyMaker.DeriveCoinTypeKey TestDouble.bip44
                TestDouble.privateStore TestDouble.unlocked TestDouble.keyed)) /\
  In (EvChild (2 ^ 31))
     (events (LocalKeyMaker.DeriveAccountKey TestDouble.bip44 0
                TestDouble.privateStore TestDouble.unlocked TestDouble.keyed)).
Proof.
  assert (H1 : (0 <= @HardenedKeyStart TestDouble.collaborators)%Z)
    by (vm_compute; discriminate).
  assert (H2 : (@maxCoinType TestDouble.collaborators
                + @HardenedKeyStart TestDouble.collaborators < 2 ^ 32)%Z)
    by reflexivity.
  assert (H3 : (@MaxAccountNum TestDouble.collaborators
                <= @maxCoinType TestDouble.collaborators)%Z)
    by (vm_compute; discriminate).
  assert (H4 : (0 <= Coin TestDouble.bip44
                <= @maxCoinType TestDouble.collaborators)%Z)
    by (split; vm_compute; discriminate).
  assert (H5 : (0 <= 0 <= @MaxAccountNum TestDouble.collaborators)%Z)
    by (split; vm_compute; discriminate).
  set (ck := ({| TestDouble.isPrivate := true;
                 TestDouble.path := [2 ^ 31 + 44; 2 ^ 31]%Z;
                 TestDouble.material := TestDouble.storedKey |}
              : @ExtendedKey TestDouble.collaborators)).
  set (cp := ({| TestDouble.isPrivate := false;
                 TestDouble.path := [2 ^ 31 + 44; 2 ^ 31]%Z;
                 TestDouble.material := TestDouble.storedKey |}
              : @ExtendedKey TestDouble.collaborators)).
  assert (Hr : outcome (LocalKeyMaker.DeriveCoinTypeKey TestDouble.bip44
                 TestDouble.privateStore TestDouble.unlocked TestDouble.keyed) =
               Returns (Some ck, Some cp, None)) by reflexivity.
  do 3 (split; [assumption|]). split; [eauto|].
  destruct (X14_hardened_indices_do_not_wrap TestDouble.bip44 0
              TestDouble.privateStore TestDouble.unlocked TestDouble.keyed
              ck (Some cp) H1 H2 H3 H4 H5 Hr) as (Hc & Ha & _).
  split; [exact Hc|exact Ha].
Defined.

(** X15 on the purpose [2^31 + 5], whose child is derived at index 5. *)
Lemma X15_high_purpose_wraps_witness :
  let scope := {| Purpose := 2 ^ 31 + 5; Coin := 0 |} in
  @HardenedKeyStart TestDouble.collaborators = (2 ^ 31)%Z /\
  (2 ^ 31 <= Purpose scope < 2 ^ 32)%Z /\
  (Coin scope <= @maxCoinType TestDouble.collaborators)%Z /\
  rootPrivKey (this TestDouble.keyed) = Some TestDouble.rootKey /\
  exists rest,
    events (LocalKeyMaker.DeriveCoinTypeKey scope TestDouble.privateStore
              TestDouble.unlocked TestDouble.keyed) =
    EvDeriveCoinTypeKey scope :: EvChild 5 :: rest.
Proof.
  intros scope.
  assert (H1 : @HardenedKeyStart TestDouble.collaborators = (2 ^ 31)%Z)
    by reflexivity.
  assert (H2 : (2 ^ 31 <= Purpose scope < 2 ^ 32)%Z)
    by (split; [vm_compute; discriminate|reflexivity]).
  assert (H3 : (Coin scope <= @maxCoinType TestDouble.collaborators)%Z)
    by (vm_compute; discriminate).
  assert (H4 : rootPrivKey (this TestDouble.keyed) = Some TestDouble.rootKey)
    by reflexivity.
  do 4 (split; [assumption|]).
  exact (proj1 (X15_high_purpose_wraps scope TestDouble.privateStore
                  TestDouble.unlocked TestDouble.keyed _ H1 H2 H3 H4)).
Defined.

(** X16 on a maker that had loaded the stored root key before
    [CreateMasterKey] replaced it by the master key of the seed. *)
Lemma X16_coin_type_key_from_seed_witness :
  let loaded := final (LocalKeyMaker.DeriveCoinTypeKey TestDouble.bip44
                         TestDouble.privateStore TestDouble.unlocked
                         TestDouble.fresh) in
  let r := LocalKeyMaker.DeriveCoinTypeKey TestDouble.bip44
             TestDouble.watchingOnlyStore TestDouble.locked
             (final (LocalKeyMaker.CreateMasterKey loaded)) in
  rootPrivKey (this loaded) = Some TestDouble.rootKey /\
  (exists root rootPub,
      outcome (LocalKeyMaker.CreateMasterKey loaded) =
      Returns (Some root, Some rootPub, None)) /\
  (Coin TestDouble.bip44 <= @maxCoinType TestDouble.collaborators)%Z /\
  exists priv pub,
    spec_manual_coin_type_key TestDouble.seed16 None TestDouble.bip44 =
      Ok priv /\
    outcome r = Returns (Some priv, Some pub, None).
Proof.
  intros loaded r.
  set (root := ({| TestDouble.isPrivate := true; TestDouble.path := [];
                   TestDouble.material := TestDouble.seed16 |}
                : @ExtendedKey TestDouble.collaborators)).
  set (rootPub := ({| TestDouble.isPrivate := false; TestDouble.path := [];
                      TestDouble.material := TestDouble.seed16 |}
                   : @ExtendedKey TestDouble.collaborators)).
  set (priv := ({| TestDouble.isPrivate := true;
                   TestDouble.path := [2 ^ 31 + 44; 2 ^ 31]%Z;
                   TestDouble.material := TestDouble.seed16 |}
                : @ExtendedKey TestDouble.collaborators)).
  set (pub := ({| TestDouble.isPrivate := false;
                  TestDouble.path := [2 ^ 31 + 44; 2 ^ 31]%Z;
                  TestDouble.material := TestDouble.seed16 |}
               : @ExtendedKey TestDouble.collaborators)).
  assert (Hl : rootPrivKey (this loaded) = Some TestDouble.rootKey)
    by reflexivity.
  assert (Hcreate : outcome (LocalKeyMaker.CreateMasterKey loaded) =
                    Returns (Some root, Some rootPub, None)) by reflexivity.
  assert (Hc : (Coin TestDouble.bip44 <=
                @maxCoinType TestDouble.collaborators)%Z)
    by (vm_compute; discriminate).
  split; [exact Hl|]. split; [eauto|]. split; [exact Hc|].
  destruct (X16_coin_type_key_from_seed TestDouble.bip44
              TestDouble.watchingOnlyStore TestDouble.locked loaded
              root (Some rootPub) None Hcreate Hc) as (_ & _ & Hany & Hsome).
  assert (Hr : outcome r = Returns (Some priv, Some pub, None))
    by (apply Hsome; reflexivity).
  exists priv, pub. split; [exact (Hany _ _ _ Hr)|exact Hr].
Defined.

(** X17 on a maker made from a root key. *)
Lemma X17_cached_ignores_store_and_decryptor_witness :
  is_Some (rootPrivKey (this TestDouble.keyed)) /\
  LocalKeyMaker.DeriveCoinTypeKey TestDouble.bip44 TestDouble.privateStore
    TestDouble.unlocked TestDouble.keyed =
  LocalKeyMaker.DeriveCoinTypeKey TestDouble.bip44 TestDouble.watchingOnlyStore
    TestDouble.locked TestDouble.keyed /\
  LocalKeyMaker.DeriveAccountKey TestDouble.bip44 7 TestDouble.privateStore
    TestDouble.unlocked TestDouble.keyed =
  LocalKeyMaker.DeriveAccountKey TestDouble.bip44 7
    TestDouble.watchingOnlyStore TestDouble.locked TestDouble.keyed.
Proof.
  assert (Hs : is_Some (rootPrivKey (this TestDouble.keyed)))
    by (exists TestDouble.rootKey; reflexivity).
  split; [exact Hs|].
  destruct (X17_cached_ignores_store_and_decryptor TestDouble.bip44 7
              TestDouble.privateStore TestDouble.unlocked
              TestDouble.watchingOnlyStore TestDouble.locked
              TestDouble.keyed Hs) as (H1 & H2 & _).
  split; [exact H1|exact H2].
Defined.

(** X18 on a maker made from a root key: account 0 derives, account 14 has
    no child and the key of account 13 cannot be neutered. *)
Lemma X18_account_key_is_child_of_coin_type_key_witness :
  let run account :=
    LocalKeyMaker.DeriveAccountKey StrictDouble.bip44 account
      StrictDouble.emptyStore StrictDouble.locked StrictDouble.keyed in
  (14 <= @MaxAccountNum StrictDouble.collaborators)%Z /\
  (exists ck cp,
      outcome (LocalKeyMaker.DeriveCoinTypeKey StrictDouble.bip44
                 StrictDouble.emptyStore StrictDouble.locked
                 StrictDouble.keyed) = Returns (Some ck, Some cp, None)) /\
  (exists ak ap, outcome (run 0%Z) = Returns (Some ak, Some ap, None)) /\
  outcome (run 14%Z) =
    Returns (None, None,
             Some (LibErr "the extended key at this index is invalid")) /\
  outcome (run 13%Z) =
    Returns (None, None,
             Some (ErrorsNew "failed to convert private key for account 0")).
Proof.
  intros run.
  set (ck := ({| TestDouble.isPrivate := true;
                 TestDouble.path := [2 ^ 31 + 44; 2 ^ 31]%Z;
                 TestDouble.material := TestDouble.storedKey |}
              : @ExtendedKey StrictDouble.collaborators)).
  set (cp := ({| TestDouble.isPrivate := false;
                 TestDouble.path := [2 ^ 31 + 44; 2 ^ 31]%Z;
                 TestDouble.material := TestDouble.storedKey |}
              : @ExtendedKey StrictDouble.collaborators)).
  assert (H14 : (14 <= @MaxAccountNum StrictDouble.collaborators)%Z)
    by (vm_compute; discriminate).
  assert (H13 : (13 <= @MaxAccountNum StrictDouble.collaborators)%Z)
    by (vm_compute; discriminate).
  assert (H0 : (0 <= @MaxAccountNum StrictDouble.collaborators)%Z)
    by (vm_compute; discriminate).
  assert (Hr : outcome (LocalKeyMaker.DeriveCoinTypeKey StrictDouble.bip44
                 StrictDouble.emptyStore StrictDouble.locked
                 StrictDouble.keyed) = Returns (Some ck, Some cp, None))
    by reflexivity.
  split; [exact H14|]. split; [eauto|].
  destruct (X18_account_key_is_child_of_coin_type_key StrictDouble.bip44 0
              StrictDouble.emptyStore StrictDouble.locked StrictDouble.keyed
              ck (Some cp) None H0 Hr) as (_ & Hok & _).
  destruct (X18_account_key_is_child_of_coin_type_key StrictDouble.bip44 14
              StrictDouble.emptyStore StrictDouble.locked StrictDouble.keyed
              ck (Some cp) None H14 Hr) as (_ & _ & Hchild & _).
  destruct (X18_account_key_is_child_of_coin_type_key StrictDouble.bip44 13
              StrictDouble.emptyStore StrictDouble.locked StrictDouble.keyed
              ck (Some cp) None H13 Hr) as (_ & _ & _ & Hneuter).
  split; [|split].
  - eexists _, _. eapply Hok; reflexivity.
  - apply Hchild. reflexivity.
  - eapply Hneuter; reflexivity.
Defined.
